(** * Way-of-SunVox: the generator scripts and the projects they build

    The repository holds three Python scripts
    ([basic_house_track.py], [generate_examples.py] of the sidechain
    tutorial, [create_modular_construction.py]).  Each one builds tracker
    projects through the [rv.api] object model (projects, modules,
    connections, patterns) and writes them to disk.

    The development has three parts: the object model the scripts drive,
    the scripts themselves, statement by statement, and the properties of
    the projects they produce. *)

From stdpp Require Import base decidable relations list strings.
From Stdlib Require Import ZArith Strings.Byte.

Local Open Scope string_scope.
Local Open Scope nat_scope.
Local Open Scope list_scope.
Local Open Scope stdpp_scope.

(* ================================================================== *)
(** * 1. Pattern cells *)

Module Pitch.
Inductive t := C | Cs | D | Ds | E | F | Fs | G | Gs | A | As | B.
End Pitch.

(** What the [note] attribute of a cell can hold: a key of the [NOTE]
    enumeration, or one of the commands of [NOTECMD] the scripts use. *)
Inductive note_value :=
  | EMPTY
  | NOTE_OFF
  | Key (pc : Pitch.t) (octave : nat).

Module NOTECMD.
Definition EMPTY := EMPTY.
Definition NOTE_OFF := NOTE_OFF.
End NOTECMD.

Module NOTE.
Definition A2 := Key Pitch.A 2.
Definition F2 := Key Pitch.F 2.
Definition G2 := Key Pitch.G 2.
Definition C3 := Key Pitch.C 3.
Definition E3 := Key Pitch.E 3.
Definition F3 := Key Pitch.F 3.
Definition G3 := Key Pitch.G 3.
Definition A3 := Key Pitch.A 3.
Definition B3 := Key Pitch.B 3.
Definition C4 := Key Pitch.C 4.
Definition D4 := Key Pitch.D 4.
Definition E4 := Key Pitch.E 4.
Definition G4 := Key Pitch.G 4.
Definition A4 := Key Pitch.A 4.
Definition C5 := Key Pitch.C 5.
Definition E5 := Key Pitch.E 5.
Definition F5 := Key Pitch.F 5.
End NOTE.

#[global] Instance pitch_eq_dec : EqDecision Pitch.t.
Proof. solve_decision. Defined.
#[global] Instance note_value_eq_dec : EqDecision note_value.
Proof. solve_decision. Defined.

(** A note-on event is a cell whose [note] is a key. *)
Definition is_note_on (v : note_value) : bool :=
  match v with Key _ _ => true | _ => false end.

(** Modelled from the spec: the cell of a pattern ([rv]'s [Note] object,
    which is not part of this repository).  A cell holds a pitch
    identifier or command, a velocity and a 1-based target module index;
    0 in [vel] and [module] is the untouched default. *)
Record Note := mkNote {
  note : note_value;
  vel : nat;
  module : nat;
}.

Definition empty_cell : Note := mkNote EMPTY 0 0.

#[global] Instance Note_eq_dec : EqDecision Note.
Proof. solve_decision. Defined.

(** Modelled from the spec: a pattern is a matrix of [lines] rows by
    [tracks] columns of cells, all empty when [Pattern(...)] returns. *)
Record Pattern := mkPattern {
  pname : string;
  lines : nat;
  tracks : nat;
  data : list (list Note);
}.

Definition new_pattern (nm : string) (nlines ntracks : nat) : Pattern :=
  mkPattern nm nlines ntracks (replicate nlines (replicate ntracks empty_cell)).

Definition cell_at (P : Pattern) (line track : nat) : option Note :=
  row ← data P !! line; row !! track.

(* ================================================================== *)
(** * 2. Modules and projects *)

(** The module classes of the catalogue [m] that the scripts instantiate,
    and [Output], the sink every project is born with. *)
Inductive module_type :=
  | Output | Kicker | DrumSynth | AnalogGenerator | Generator | Fm
  | Compressor | Filter | Reverb | Delay | Amplifier | Sound2Ctl | Lfo.

#[global] Instance module_type_eq_dec : EqDecision module_type.
Proof. solve_decision. Defined.

(** Values of the keyword arguments of [new_module]. *)
Inductive kwval :=
  | KInt (z : Z)
  | KBool (b : bool)
  | KEnum (e : string)
  | KColor (r g b : Z).

#[global] Instance kwval_eq_dec : EqDecision kwval.
Proof. solve_decision. Defined.

(** Modelled from the spec: a module object.  [index] is the integer
    assigned when the module is created; [parent] is the project that
    owns it (a handle into the store of projects). *)
Record Module := mkModule {
  mtype : module_type;
  mname : string;
  kwargs : list (string * kwval);
  index : nat;
  parent : nat;
}.

#[global] Instance Module_eq_dec : EqDecision Module.
Proof. solve_decision. Defined.

Fixpoint lookup_kw (k : string) (kw : list (string * kwval)) : option kwval :=
  match kw with
  | [] => None
  | (k', v) :: kw => if decide (k = k') then Some v else lookup_kw k kw
  end.

(** The value a keyword argument was given at creation, if it was given. *)
Definition kwarg (k : string) (m : Module) : option kwval :=
  lookup_kw k (kwargs m).

(** Modelled from the spec: a project.  Attributes the scripts may assign
    are [None] until assigned.  [module_connections] holds the directed
    edges [(source index, destination index)] in the order they were
    made; [patterns] holds handles of the attached pattern objects. *)
Record Project := mkProject {
  name : option string;
  initial_bpm : option nat;
  initial_tpl : option nat;
  sunvox_version : option (nat * nat * nat * nat);
  based_on_version : option (nat * nat * nat * nat);
  modules : list Module;
  module_connections : list (nat * nat);
  patterns : list nat;
}.

Definition empty_project (self : nat) : Project :=
  {| name := None; initial_bpm := None; initial_tpl := None;
     sunvox_version := None; based_on_version := None;
     modules := [mkModule Output "Output" [] 0 self];
     module_connections := []; patterns := [] |}.

(* ================================================================== *)
(** * 3. The world a script runs in *)

(** One assignment to an attribute of a pattern cell, as the scripts
    write it: [pat.data[line][track].note = v] and its two siblings. *)
Inductive attr :=
  | AttrNote (v : note_value)
  | AttrVel (v : nat)
  | AttrModule (v : nat).

Record CellWrite := mkWrite {
  w_pattern : nat;
  w_line : nat;
  w_track : nat;
  w_attr : attr;
}.

(** The objects alive during a run and what the run has left on disk.
    Projects and patterns are Python objects the script holds references
    to, so both live in stores addressed by handle: a pattern attached to
    a project and then filled through the script's own variable is one
    object.  [written] lists the files written so far (path and bytes),
    [made_dirs] the directories [os.makedirs] was asked for, and [trace]
    records every cell assignment in program order. *)
Record World := mkWorld {
  projects : list Project;
  pattern_store : list Pattern;
  written : list (string * list byte);
  made_dirs : list string;
  trace : list CellWrite;
}.

Definition empty_world : World := mkWorld [] [] [] [] [].

(** What a run can read from outside: nothing is read by the scripts
    except the location of the script file ([__file__], from which
    [generate_examples.py] computes [script_dir]); [can_open] says which
    paths the operating system lets the run create or open for writing. *)
Record Env := mkEnv {
  argv : list string;
  environ : list (string * string);
  script_dir : string;
  can_open : string → bool;
}.

Inductive Exn :=
  | IndexError
  | OSError (path : string)
  | DeadHandle.

(** Statements: a state transformer that may stop with an exception.  The
    world is returned in both cases, so what was written before an
    exception stays written. *)
Definition Py (A : Type) : Type := World → (Exn + A) * World.

#[global] Instance Py_ret : MRet Py := λ A a w, (inr a, w).
#[global] Instance Py_bind : MBind Py := λ A B f m w,
  match m w with
  | (inr a, w') => f a w'
  | (inl e, w') => (inl e, w')
  end.

Definition raise {A} (e : Exn) : Py A := λ w, (inl e, w).

(** [for x in xs: body] *)
Fixpoint for_ {A} (xs : list A) (body : A → Py unit) : Py unit :=
  match xs with
  | [] => mret tt
  | x :: xs' => body x ;; for_ xs' body
  end.

(** [if c: body] with no [else]. *)
Definition when_ (c : bool) (body : Py unit) : Py unit :=
  if c then body else mret tt.

(** Python's [range(start, stop, step)] for a positive step. *)
Definition range (start stop step : nat) : list nat :=
  (λ i, start + i * step) <$> seq 0 ((stop - start + (step - 1)) / step).

(** ** Store updates *)

Definition with_projects (f : list Project → list Project) (w : World) : World :=
  mkWorld (f (projects w)) (pattern_store w) (written w) (made_dirs w) (trace w).
Definition with_pattern_store (f : list Pattern → list Pattern) (w : World) : World :=
  mkWorld (projects w) (f (pattern_store w)) (written w) (made_dirs w) (trace w).
Definition with_written (f : list (string * list byte) → list (string * list byte))
    (w : World) : World :=
  mkWorld (projects w) (pattern_store w) (f (written w)) (made_dirs w) (trace w).
Definition with_made_dirs (f : list string → list string) (w : World) : World :=
  mkWorld (projects w) (pattern_store w) (written w) (f (made_dirs w)) (trace w).
Definition with_trace (f : list CellWrite → list CellWrite) (w : World) : World :=
  mkWorld (projects w) (pattern_store w) (written w) (made_dirs w) (f (trace w)).

Definition with_modules (f : list Module → list Module) (p : Project) : Project :=
  mkProject (name p) (initial_bpm p) (initial_tpl p) (sunvox_version p)
    (based_on_version p) (f (modules p)) (module_connections p) (patterns p).
Definition with_connections (f : list (nat * nat) → list (nat * nat)) (p : Project)
    : Project :=
  mkProject (name p) (initial_bpm p) (initial_tpl p) (sunvox_version p)
    (based_on_version p) (modules p) (f (module_connections p)) (patterns p).
Definition with_patterns (f : list nat → list nat) (p : Project) : Project :=
  mkProject (name p) (initial_bpm p) (initial_tpl p) (sunvox_version p)
    (based_on_version p) (modules p) (module_connections p) (f (patterns p)).
Definition with_data (f : list (list Note) → list (list Note)) (P : Pattern) : Pattern :=
  mkPattern (pname P) (lines P) (tracks P) (f (data P)).

(** Apply [f] to the project behind handle [p]. *)
Definition update_project (p : nat) (f : Project → Project) : Py unit := λ w,
  match projects w !! p with
  | Some _ => (inr tt, with_projects (alter f p) w)
  | None => (inl DeadHandle, w)
  end.

(* ================================================================== *)
(** * 4. The library calls the scripts make *)

(** Modelled from the spec: [Project()] of [rv.api].  A project is created
    empty but for its Output sink, which is module 0. *)
Definition new_project : Py nat := λ w,
  let p := length (projects w) in
  (inr p, with_projects (λ ps, ps ++ [empty_project p]) w).

Definition set_name (p : nat) (s : string) : Py unit :=
  update_project p (λ P, mkProject (Some s) (initial_bpm P) (initial_tpl P)
    (sunvox_version P) (based_on_version P) (modules P) (module_connections P) (patterns P)).
Definition set_initial_bpm (p : nat) (n : nat) : Py unit :=
  update_project p (λ P, mkProject (name P) (Some n) (initial_tpl P)
    (sunvox_version P) (based_on_version P) (modules P) (module_connections P) (patterns P)).
Definition set_initial_tpl (p : nat) (n : nat) : Py unit :=
  update_project p (λ P, mkProject (name P) (initial_bpm P) (Some n)
    (sunvox_version P) (based_on_version P) (modules P) (module_connections P) (patterns P)).
Definition set_sunvox_version (p : nat) (v : nat * nat * nat * nat) : Py unit :=
  update_project p (λ P, mkProject (name P) (initial_bpm P) (initial_tpl P)
    (Some v) (based_on_version P) (modules P) (module_connections P) (patterns P)).
Definition set_based_on_version (p : nat) (v : nat * nat * nat * nat) : Py unit :=
  update_project p (λ P, mkProject (name P) (initial_bpm P) (initial_tpl P)
    (sunvox_version P) (Some v) (modules P) (module_connections P) (patterns P)).

(** Modelled from the spec: [p.output], the designated Output sink. *)
Definition output (p : nat) : Py Module := λ w,
  match projects w !! p ≫= λ P, modules P !! 0 with
  | Some m => (inr m, w)
  | None => (inl DeadHandle, w)
  end.

(** Modelled from the spec: [p.new_module(cls, name=..., **kw)] of [rv.api],
    whose code is not in this repository.  The spec gives a module "a
    stable integer index assigned at creation and never reused", and
    projects are arenas of modules with explicit integer indices: the new
    module takes the next free slot of its project. *)
Definition new_module (p : nat) (cls : module_type) (nm : string)
    (kw : list (string * kwval)) : Py Module := λ w,
  match projects w !! p with
  | Some P =>
      let m := mkModule cls nm kw (length (modules P)) p in
      (inr m, with_projects (alter (with_modules (λ ms, ms ++ [m])) p) w)
  | None => (inl DeadHandle, w)
  end.

(** Modelled from the spec: [a >> b], the connection operator.  It adds
    the edge from [a] to [b] to the project that owns [a] and evaluates
    to [b], so that [a >> b >> c] is [(a >> b) >> c].  An edge made twice
    is listed twice. *)
Definition rshift (a b : Module) : Py Module :=
  update_project (parent a) (with_connections (λ es, es ++ [(index a, index b)])) ;;
  mret b.

Notation "a >> b" := (rshift a b) (at level 50, left associativity).
(** The tail of a chain: the left operand is itself a connection. *)
Notation "c >>> b" := (c ≫= λ a, rshift a b) (at level 50, left associativity).

(** Modelled from the spec: [Pattern(name=..., lines=..., tracks=...)]. *)
Definition new_Pattern (nm : string) (nlines ntracks : nat) : Py nat := λ w,
  let h := length (pattern_store w) in
  (inr h, with_pattern_store (λ ps, ps ++ [new_pattern nm nlines ntracks]) w).

(** Modelled from the spec: [p.attach_pattern(pat)]. *)
Definition attach_pattern (p pat : nat) : Py unit :=
  update_project p (with_patterns (λ hs, hs ++ [pat])).

(** [pat.data[line][track].<attribute> = v].  The two subscripts are
    Python list subscripts with non-negative indices: out of range they
    raise [IndexError].  The assignment is recorded in the trace before
    the subscripts are evaluated. *)
Definition assign (a : attr) (c : Note) : Note :=
  match a with
  | AttrNote v => mkNote v (vel c) (module c)
  | AttrVel v => mkNote (note c) v (module c)
  | AttrModule v => mkNote (note c) (vel c) v
  end.

Definition set_cell (pat line track : nat) (a : attr) : Py unit := λ w0,
  let w := with_trace (λ t, t ++ [mkWrite pat line track a]) w0 in
  match pattern_store w !! pat with
  | None => (inl DeadHandle, w)
  | Some P =>
      match data P !! line with
      | None => (inl IndexError, w)
      | Some row =>
          match row !! track with
          | None => (inl IndexError, w)
          | Some c =>
              (inr tt, with_pattern_store
                 (alter (with_data (λ d, <[line := <[track := assign a c]> row]> d)) pat) w)
          end
      end
  end.

Definition set_note (pat line track : nat) (v : note_value) : Py unit :=
  set_cell pat line track (AttrNote v).
Definition set_vel (pat line track : nat) (v : nat) : Py unit :=
  set_cell pat line track (AttrVel v).
Definition set_module (pat line track : nat) (v : nat) : Py unit :=
  set_cell pat line track (AttrModule v).

(** Python's [os.path.join(a, b)] on a POSIX system, for two components. *)
(** [b] starts with the separator (character 47, the slash). *)
Definition is_absolute (b : string) : bool :=
  match b with
  | String c _ => Ascii.eqb c (Ascii.ascii_of_nat 47)
  | EmptyString => false
  end.

Definition ends_with_sep (a : string) : bool :=
  String.eqb (String.substring (String.length a - 1) 1 a) "/".

Definition os_path_join (a b : string) : string :=
  if is_absolute b then b
  else if String.eqb a "" || ends_with_sep a then a +:+ b
  else a +:+ "/" +:+ b.

(** The pattern objects a project holds, in attachment order. *)
Definition attached (w : World) (P : Project) : list Pattern :=
  omap (λ h, pattern_store w !! h) (patterns P).

(* ================================================================== *)
(** * 5. The scripts

    Each script is transcribed statement by statement, in order, with
    the names of its variables.  Calls of [print] only write progress text
    to standard output and are left out; nothing else is.  A script that
    builds several projects is cut at each [Project()] into one definition
    per project, named after the file it writes, and the script itself is
    their sequence. *)

Section Scripts.

  (** The serialiser of the library, [Project.write_to], is opaque to the
      repository: it maps a project and its patterns to the bytes of the
      file.  A fixed version of the library is a fixed function. *)
  Variable write_to : Project → list Pattern → list byte.
  Variable env : Env.

  (** [with open(path, 'wb') as f: p.write_to(f)] *)
Definition open_wb_write_to (path : string) (p : nat) : Py unit := λ w,
    if can_open env path then
      match projects w !! p with
      | Some P => (inr tt, with_written (λ fs, fs ++ [(path, write_to P (attached w P))]) w)
      | None => (inl DeadHandle, w)
      end
    else (inl (OSError path), w).

  (** [os.makedirs(path, exist_ok=True)] *)
Definition os_makedirs (path : string) : Py unit := λ w,
    if can_open env path then (inr tt, with_made_dirs (λ ds, ds ++ [path]) w)
    else (inl (OSError path), w).

  (** ** [basic_house_track.py] *)

  (** The one project of the script, a house track at 125 BPM. *)
Definition basic_house_track : Py unit :=
    p ← new_project;
    set_name p "Basic House Track";;
    set_initial_bpm p 125;;
    set_initial_tpl p 6;;
    kick ← new_module p Kicker "Kick"
        [("vol", KInt 256); ("boost", KInt 200); ("release", KInt 100); ("x", KInt 256);
         ("y", KInt 128); ("color", KColor 255 80 80)];
    drums ← new_module p DrumSynth "Drums"
        [("bass_volume", KInt 0); ("hihat_volume", KInt 220); ("snare_volume", KInt 180);
         ("x", KInt 384); ("y", KInt 128); ("color", KColor 255 200 80)];
    clap ← new_module p DrumSynth "Clap"
        [("bass_volume", KInt 0); ("hihat_volume", KInt 0); ("snare_volume", KInt 200);
         ("snare_panning", KInt 0); ("x", KInt 512); ("y", KInt 128);
         ("color", KColor 200 255 80)];
    bass ← new_module p AnalogGenerator "Sub Bass"
        [("waveform", KEnum "Waveform.sin"); ("volume", KInt 220); ("attack", KInt 5);
         ("release", KInt 150); ("sustain", KBool true);
         ("filter", KEnum "Filter.lp_12db"); ("filter_cutoff", KInt 100);
         ("x", KInt 256); ("y", KInt 256); ("color", KColor 80 120 255)];
    bass_comp ← new_module p Compressor "Bass Comp"
        [("volume", KInt 256); ("threshold", KInt 180); ("slope", KInt 0);
         ("attack", KInt 5); ("release", KInt 100); ("x", KInt 384); ("y", KInt 256);
         ("color", KColor 100 150 255)];
    chords ← new_module p Fm "Chords"
        [("c_volume", KInt 180); ("m_volume", KInt 120); ("c_freq_ratio", KInt 1);
         ("m_freq_ratio", KInt 2); ("attack", KInt 150); ("release", KInt 200);
         ("sustain", KBool true); ("x", KInt 256); ("y", KInt 384);
         ("color", KColor 180 120 255)];
    chord_filter ← new_module p Filter "Chord Filter"
        [("type", KEnum "Type.lp"); ("freq", KInt 180); ("resonance", KInt 100);
         ("x", KInt 384); ("y", KInt 384); ("color", KColor 200 140 255)];
    chord_reverb ← new_module p Reverb "Chord Reverb"
        [("volume", KInt 256); ("dryout", KInt 180); ("wetout", KInt 100);
         ("x", KInt 512); ("y", KInt 384); ("color", KColor 220 160 255)];
    lead ← new_module p AnalogGenerator "Lead"
        [("waveform", KEnum "Waveform.saw"); ("volume", KInt 160); ("attack", KInt 50);
         ("release", KInt 180); ("sustain", KBool true);
         ("filter", KEnum "Filter.lp_12db"); ("filter_cutoff", KInt 200);
         ("x", KInt 256); ("y", KInt 512); ("color", KColor 255 180 100)];
    lead_delay ← new_module p Delay "Lead Delay"
        [("volume", KInt 256); ("delay_l", KInt 6); ("delay_r", KInt 6);
         ("channels", KEnum "Channels.stereo"); ("x", KInt 384); ("y", KInt 512);
         ("color", KColor 255 200 120)];
    master_comp ← new_module p Compressor "Master Comp"
        [("volume", KInt 256); ("threshold", KInt 190); ("slope", KInt 0);
         ("attack", KInt 10); ("release", KInt 150); ("x", KInt 640); ("y", KInt 300);
         ("color", KColor 255 255 100)];
    kick >> master_comp;;
    drums >> master_comp;;
    clap >> master_comp;;
    bass >> bass_comp >>> master_comp;;
    chords >> chord_filter >>> chord_reverb >>> master_comp;;
    lead >> lead_delay >>> master_comp;;
    o ← output p;
    master_comp >> o;;
    kick_pattern ← new_Pattern "Kick" 32 1;
    attach_pattern p kick_pattern;;
    for_ [0; 8; 16; 24] (λ line,
      set_note kick_pattern line 0 NOTE.C5;;
      set_vel kick_pattern line 0 120;;
      set_module kick_pattern line 0 (index kick + 1));;
    hihat_pattern ← new_Pattern "Hihats" 32 1;
    attach_pattern p hihat_pattern;;
    for_ (range 0 32 4) (λ line,
      set_note hihat_pattern line 0 NOTE.C5;;
      set_vel hihat_pattern line 0 90;;
      set_module hihat_pattern line 0 (index drums + 1));;
    for_ [6; 14; 22; 30] (λ line,
      set_note hihat_pattern line 0 NOTE.C5;;
      set_vel hihat_pattern line 0 110;;
      set_module hihat_pattern line 0 (index drums + 1));;
    clap_pattern ← new_Pattern "Claps" 32 1;
    attach_pattern p clap_pattern;;
    for_ [8; 24] (λ line,
      set_note clap_pattern line 0 NOTE.C5;;
      set_vel clap_pattern line 0 100;;
      set_module clap_pattern line 0 (index clap + 1));;
    bass_pattern ← new_Pattern "Bassline" 128 1;
    attach_pattern p bass_pattern;;
    set_note bass_pattern 0 0 NOTE.A2;;
    set_vel bass_pattern 0 0 100;;
    set_module bass_pattern 0 0 (index bass + 1);;
    set_note bass_pattern 14 0 NOTECMD.NOTE_OFF;;
    set_module bass_pattern 14 0 (index bass + 1);;
    set_note bass_pattern 16 0 NOTE.A2;;
    set_vel bass_pattern 16 0 100;;
    set_module bass_pattern 16 0 (index bass + 1);;
    set_note bass_pattern 30 0 NOTECMD.NOTE_OFF;;
    set_module bass_pattern 30 0 (index bass + 1);;
    set_note bass_pattern 32 0 NOTE.F2;;
    set_vel bass_pattern 32 0 100;;
    set_module bass_pattern 32 0 (index bass + 1);;
    set_note bass_pattern 46 0 NOTECMD.NOTE_OFF;;
    set_module bass_pattern 46 0 (index bass + 1);;
    set_note bass_pattern 48 0 NOTE.F2;;
    set_vel bass_pattern 48 0 100;;
    set_module bass_pattern 48 0 (index bass + 1);;
    set_note bass_pattern 62 0 NOTECMD.NOTE_OFF;;
    set_module bass_pattern 62 0 (index bass + 1);;
    set_note bass_pattern 64 0 NOTE.C3;;
    set_vel bass_pattern 64 0 100;;
    set_module bass_pattern 64 0 (index bass + 1);;
    set_note bass_pattern 78 0 NOTECMD.NOTE_OFF;;
    set_module bass_pattern 78 0 (index bass + 1);;
    set_note bass_pattern 80 0 NOTE.C3;;
    set_vel bass_pattern 80 0 100;;
    set_module bass_pattern 80 0 (index bass + 1);;
    set_note bass_pattern 94 0 NOTECMD.NOTE_OFF;;
    set_module bass_pattern 94 0 (index bass + 1);;
    set_note bass_pattern 96 0 NOTE.G2;;
    set_vel bass_pattern 96 0 100;;
    set_module bass_pattern 96 0 (index bass + 1);;
    set_note bass_pattern 110 0 NOTECMD.NOTE_OFF;;
    set_module bass_pattern 110 0 (index bass + 1);;
    set_note bass_pattern 112 0 NOTE.G2;;
    set_vel bass_pattern 112 0 100;;
    set_module bass_pattern 112 0 (index bass + 1);;
    set_note bass_pattern 126 0 NOTECMD.NOTE_OFF;;
    set_module bass_pattern 126 0 (index bass + 1);;
    chord_pattern ← new_Pattern "Chords" 128 3;
    attach_pattern p chord_pattern;;
    set_note chord_pattern 0 0 NOTE.A3;;
    set_vel chord_pattern 0 0 80;;
    set_module chord_pattern 0 0 (index chords + 1);;
    set_note chord_pattern 0 1 NOTE.C4;;
    set_vel chord_pattern 0 1 75;;
    set_module chord_pattern 0 1 (index chords + 1);;
    set_note chord_pattern 0 2 NOTE.E4;;
    set_vel chord_pattern 0 2 75;;
    set_module chord_pattern 0 2 (index chords + 1);;
    set_note chord_pattern 32 0 NOTE.F3;;
    set_vel chord_pattern 32 0 80;;
    set_module chord_pattern 32 0 (index chords + 1);;
    set_note chord_pattern 32 1 NOTE.A3;;
    set_vel chord_pattern 32 1 75;;
    set_module chord_pattern 32 1 (index chords + 1);;
    set_note chord_pattern 32 2 NOTE.C4;;
    set_vel chord_pattern 32 2 75;;
    set_module chord_pattern 32 2 (index chords + 1);;
    set_note chord_pattern 64 0 NOTE.C4;;
    set_vel chord_pattern 64 0 80;;
    set_module chord_pattern 64 0 (index chords + 1);;
    set_note chord_pattern 64 1 NOTE.E4;;
    set_vel chord_pattern 64 1 75;;
    set_module chord_pattern 64 1 (index chords + 1);;
    set_note chord_pattern 64 2 NOTE.G4;;
    set_vel chord_pattern 64 2 75;;
    set_module chord_pattern 64 2 (index chords + 1);;
    set_note chord_pattern 96 0 NOTE.G3;;
    set_vel chord_pattern 96 0 80;;
    set_module chord_pattern 96 0 (index chords + 1);;
    set_note chord_pattern 96 1 NOTE.B3;;
    set_vel chord_pattern 96 1 75;;
    set_module chord_pattern 96 1 (index chords + 1);;
    set_note chord_pattern 96 2 NOTE.D4;;
    set_vel chord_pattern 96 2 75;;
    set_module chord_pattern 96 2 (index chords + 1);;
    lead_pattern ← new_Pattern "Lead Melody" 64 1;
    attach_pattern p lead_pattern;;
    let melody_notes :=
      [(0, NOTE.E5, 90); (8, NOTE.C5, 85); (16, NOTE.A4, 90); (24, NOTE.C5, 85);
       (32, NOTE.F5, 90); (40, NOTE.E5, 85); (48, NOTE.C5, 90); (56, NOTE.A4, 85)] in
    for_ melody_notes (λ '(line, note, vel),
      set_note lead_pattern line 0 note;;
      set_vel lead_pattern line 0 vel;;
      set_module lead_pattern line 0 (index lead + 1);;
      when_ (line + 6 <? 64) (
        set_note lead_pattern (line + 6) 0 NOTECMD.NOTE_OFF;;
        set_module lead_pattern (line + 6) 0 (index lead + 1)));;
    intro_kick ← new_Pattern "Intro Kick" 32 1;
    attach_pattern p intro_kick;;
    for_ [0; 8; 16; 24] (λ line,
      set_note intro_kick line 0 NOTE.C5;;
      set_vel intro_kick line 0 100;;
      set_module intro_kick line 0 (index kick + 1));;
    let output_path := "/home/user/Way-of-SunVox/basic_house_track.sunvox" in
    open_wb_write_to output_path p.

Definition basic_house_track_py : Py unit :=
    basic_house_track.

  (** ** [generate_examples.py] *)

  (** Example 1: Basic EDM Kick-to-Bass Sidechain *)
Definition sidechain_basic_edm : Py unit :=
    p1 ← new_project;
    set_sunvox_version p1 (1, 9, 3, 1);;
    set_based_on_version p1 (1, 9, 3, 1);;
    set_name p1 "Sidechain - Basic EDM";;
    set_initial_bpm p1 128;;
    set_initial_tpl p1 6;;
    kick ← new_module p1 Kicker "Kick"
        [("vol", KInt 256); ("boost", KInt 256); ("x", KInt 256); ("y", KInt 256);
         ("color", KColor 255 80 80)];
    bass ← new_module p1 AnalogGenerator "Bass"
        [("waveform", KEnum "Waveform.saw"); ("volume", KInt 192); ("attack", KInt 0);
         ("release", KInt 200); ("sustain", KBool true); ("x", KInt 512);
         ("y", KInt 128); ("color", KColor 80 180 255)];
    comp ← new_module p1 Compressor "Sidechain Comp"
        [("volume", KInt 256); ("threshold", KInt 154); ("slope", KInt 0);
         ("attack", KInt 1); ("release", KInt 100); ("mode", KEnum "Mode.peak");
         ("x", KInt 640); ("y", KInt 128); ("color", KColor 80 255 180)];
    s2c ← new_module p1 Sound2Ctl "SC Trigger"
        [("absolute", KBool true); ("gain", KInt 200); ("smooth", KInt 10);
         ("sample_rate_hz", KInt 100); ("channels", KEnum "Channels.stereo");
         ("x", KInt 384); ("y", KInt 256); ("color", KColor 255 200 80)];
    o ← output p1;
    bass >> comp >>> o;;
    o ← output p1;
    kick >> o;;
    kick >> s2c;;
    kick_pattern ← new_Pattern "Kick" 32 1;
    attach_pattern p1 kick_pattern;;
    for_ [0; 8; 16; 24] (λ line,
      set_note kick_pattern line 0 NOTE.C5;;
      set_vel kick_pattern line 0 128;;
      set_module kick_pattern line 0 (index kick + 1));;
    bass_pattern ← new_Pattern "Bass" 32 1;
    attach_pattern p1 bass_pattern;;
    set_note bass_pattern 0 0 NOTE.C3;;
    set_vel bass_pattern 0 0 100;;
    set_module bass_pattern 0 0 (index bass + 1);;
    set_note bass_pattern 30 0 NOTECMD.NOTE_OFF;;
    set_module bass_pattern 30 0 (index bass + 1);;
    let output_path := os_path_join (script_dir env) "sidechain_basic_edm.sunvox" in
    open_wb_write_to output_path p1.

  (** Example 2: Vocal Clarity (Subtle Sidechain) *)
Definition sidechain_vocal_clarity : Py unit :=
    p2 ← new_project;
    set_sunvox_version p2 (1, 9, 3, 1);;
    set_based_on_version p2 (1, 9, 3, 1);;
    set_name p2 "Sidechain - Vocal Clarity";;
    set_initial_bpm p2 90;;
    set_initial_tpl p2 6;;
    vocal_trigger ← new_module p2 Kicker "Vocal Trigger"
        [("vol", KInt 0); ("x", KInt 256); ("y", KInt 256);
         ("color", KColor 255 180 255)];
    pad ← new_module p2 AnalogGenerator "Music Pad"
        [("waveform", KEnum "Waveform.saw"); ("volume", KInt 180); ("attack", KInt 200);
         ("release", KInt 256); ("sustain", KBool true);
         ("filter", KEnum "Filter.lp_12db"); ("filter_cutoff", KInt 180);
         ("x", KInt 512); ("y", KInt 128); ("color", KColor 150 120 255)];
    subtle_comp ← new_module p2 Compressor "Gentle Duck"
        [("volume", KInt 256); ("threshold", KInt 180); ("slope", KInt 0);
         ("attack", KInt 8); ("release", KInt 200); ("mode", KEnum "Mode.peak");
         ("x", KInt 640); ("y", KInt 128); ("color", KColor 80 255 180)];
    s2c_vocal ← new_module p2 Sound2Ctl "Vocal SC"
        [("absolute", KBool true); ("gain", KInt 120); ("smooth", KInt 30);
         ("x", KInt 384); ("y", KInt 256); ("color", KColor 255 200 80)];
    o ← output p2;
    pad >> subtle_comp >>> o;;
    vocal_trigger >> s2c_vocal;;
    trigger_pattern ← new_Pattern "Vocal Timing" 64 1;
    attach_pattern p2 trigger_pattern;;
    for_ [0; 16; 32; 48] (λ line,
      set_note trigger_pattern line 0 NOTE.C5;;
      set_vel trigger_pattern line 0 80;;
      set_module trigger_pattern line 0 (index vocal_trigger + 1));;
    pad_pattern ← new_Pattern "Pad" 64 1;
    attach_pattern p2 pad_pattern;;
    set_note pad_pattern 0 0 NOTE.C4;;
    set_vel pad_pattern 0 0 80;;
    set_module pad_pattern 0 0 (index pad + 1);;
    let output_path := os_path_join (script_dir env) "sidechain_vocal_clarity.sunvox" in
    open_wb_write_to output_path p2.

  (** Example 3: Rhythmic Gating (Extreme Sidechain) *)
Definition sidechain_rhythmic_gate : Py unit :=
    p3 ← new_project;
    set_name p3 "Sidechain - Rhythmic Gate";;
    set_initial_bpm p3 140;;
    set_initial_tpl p3 6;;
    hihat ← new_module p3 DrumSynth "HiHat Trigger"
        [("vol", KInt 128); ("bass_panning", KInt (-128)); ("hihat_volume", KInt 256);
         ("x", KInt 256); ("y", KInt 256); ("color", KColor 255 255 80)];
    gate_pad ← new_module p3 AnalogGenerator "Gated Pad"
        [("waveform", KEnum "Waveform.triangle"); ("volume", KInt 200);
         ("attack", KInt 0); ("release", KInt 256); ("sustain", KBool true);
         ("x", KInt 512); ("y", KInt 128); ("color", KColor 255 120 200)];
    gate_comp ← new_module p3 Compressor "Gate Comp"
        [("volume", KInt 256); ("threshold", KInt 100); ("slope", KInt 0);
         ("attack", KInt 0); ("release", KInt 20); ("mode", KEnum "Mode.peak");
         ("x", KInt 640); ("y", KInt 128); ("color", KColor 255 80 80)];
    s2c_gate ← new_module p3 Sound2Ctl "Gate Trigger"
        [("absolute", KBool true); ("gain", KInt 255); ("smooth", KInt 0);
         ("x", KInt 384); ("y", KInt 256); ("color", KColor 255 200 80)];
    o ← output p3;
    gate_pad >> gate_comp >>> o;;
    o ← output p3;
    hihat >> o;;
    hihat >> s2c_gate;;
    hihat_pattern ← new_Pattern "HiHat" 16 1;
    attach_pattern p3 hihat_pattern;;
    for_ (range 0 16 2) (λ line,
      set_note hihat_pattern line 0 NOTE.C5;;
      set_vel hihat_pattern line 0 100;;
      set_module hihat_pattern line 0 (index hihat + 1));;
    gatepad_pattern ← new_Pattern "Pad" 16 1;
    attach_pattern p3 gatepad_pattern;;
    set_note gatepad_pattern 0 0 NOTE.E3;;
    set_vel gatepad_pattern 0 0 100;;
    set_module gatepad_pattern 0 0 (index gate_pad + 1);;
    let output_path := os_path_join (script_dir env) "sidechain_rhythmic_gate.sunvox" in
    open_wb_write_to output_path p3.

  (** Example 4: Multi-Band Sidechain *)
Definition sidechain_multiband : Py unit :=
    p4 ← new_project;
    set_name p4 "Sidechain - Multi-Band";;
    set_initial_bpm p4 120;;
    set_initial_tpl p4 6;;
    mb_kick ← new_module p4 Kicker "Kick"
        [("vol", KInt 256); ("x", KInt 256); ("y", KInt 384);
         ("color", KColor 255 80 80)];
    rich_pad ← new_module p4 AnalogGenerator "Rich Pad"
        [("waveform", KEnum "Waveform.saw"); ("volume", KInt 180); ("attack", KInt 150);
         ("release", KInt 250); ("sustain", KBool true); ("x", KInt 256);
         ("y", KInt 128); ("color", KColor 180 140 255)];
    lowband_filter ← new_module p4 Filter "Low Band"
        [("type", KEnum "Type.lp"); ("freq", KInt 300); ("resonance", KInt 0);
         ("x", KInt 384); ("y", KInt 64); ("color", KColor 255 100 100)];
    highband_filter ← new_module p4 Filter "High Band"
        [("type", KEnum "Type.hp"); ("freq", KInt 300); ("resonance", KInt 0);
         ("x", KInt 384); ("y", KInt 192); ("color", KColor 100 200 255)];
    lowband_comp ← new_module p4 Compressor "Low Band Comp"
        [("volume", KInt 256); ("threshold", KInt 160); ("slope", KInt 0);
         ("attack", KInt 1); ("release", KInt 120); ("x", KInt 512); ("y", KInt 64);
         ("color", KColor 80 255 180)];
    s2c_mb ← new_module p4 Sound2Ctl "SC Trigger"
        [("absolute", KBool true); ("gain", KInt 180); ("x", KInt 384); ("y", KInt 384);
         ("color", KColor 255 200 80)];
    o ← output p4;
    rich_pad >> lowband_filter >>> lowband_comp >>> o;;
    o ← output p4;
    rich_pad >> highband_filter >>> o;;
    o ← output p4;
    mb_kick >> o;;
    mb_kick >> s2c_mb;;
    mb_kick_pattern ← new_Pattern "Kick" 32 1;
    attach_pattern p4 mb_kick_pattern;;
    for_ [0; 8; 16; 24] (λ line,
      set_note mb_kick_pattern line 0 NOTE.C5;;
      set_vel mb_kick_pattern line 0 120;;
      set_module mb_kick_pattern line 0 (index mb_kick + 1));;
    mb_pad_pattern ← new_Pattern "Pad" 32 1;
    attach_pattern p4 mb_pad_pattern;;
    set_note mb_pad_pattern 0 0 NOTE.A3;;
    set_vel mb_pad_pattern 0 0 90;;
    set_module mb_pad_pattern 0 0 (index rich_pad + 1);;
    let output_path := os_path_join (script_dir env) "sidechain_multiband.sunvox" in
    open_wb_write_to output_path p4.

  (** Example 5: Inverse Sidechain (Swelling) *)
Definition sidechain_inverse : Py unit :=
    p5 ← new_project;
    set_name p5 "Sidechain - Inverse Swell";;
    set_initial_bpm p5 128;;
    set_initial_tpl p5 6;;
    inv_kick ← new_module p5 Kicker "Kick"
        [("vol", KInt 256); ("x", KInt 256); ("y", KInt 256);
         ("color", KColor 255 80 80)];
    noise ← new_module p5 Generator "Noise"
        [("volume", KInt 160); ("waveform", KEnum "Waveform.noise"); ("x", KInt 512);
         ("y", KInt 128); ("color", KColor 200 200 200)];
    amp ← new_module p5 Amplifier "Swell Amp"
        [("volume", KInt 80); ("inverse", KBool false); ("x", KInt 640); ("y", KInt 128);
         ("color", KColor 255 180 80)];
    s2c_inv ← new_module p5 Sound2Ctl "Swell Trigger"
        [("absolute", KBool true); ("gain", KInt 200); ("smooth", KInt 50);
         ("x", KInt 384); ("y", KInt 256); ("color", KColor 255 200 80)];
    o ← output p5;
    noise >> amp >>> o;;
    o ← output p5;
    inv_kick >> o;;
    inv_kick >> s2c_inv;;
    inv_kick_pattern ← new_Pattern "Kick" 32 1;
    attach_pattern p5 inv_kick_pattern;;
    for_ [0; 8; 16; 24] (λ line,
      set_note inv_kick_pattern line 0 NOTE.C5;;
      set_vel inv_kick_pattern line 0 128;;
      set_module inv_kick_pattern line 0 (index inv_kick + 1));;
    let output_path := os_path_join (script_dir env) "sidechain_inverse.sunvox" in
    open_wb_write_to output_path p5.

  (** Example 6: LFO Fake Sidechain *)
Definition sidechain_lfo_fake : Py unit :=
    p6 ← new_project;
    set_name p6 "Sidechain - LFO Fake";;
    set_initial_bpm p6 128;;
    set_initial_tpl p6 6;;
    lfo_bass ← new_module p6 AnalogGenerator "Bass"
        [("waveform", KEnum "Waveform.saw"); ("volume", KInt 200); ("attack", KInt 0);
         ("release", KInt 256); ("sustain", KBool true); ("x", KInt 384);
         ("y", KInt 128); ("color", KColor 80 180 255)];
    lfo ← new_module p6 Lfo "Pump LFO"
        [("volume", KInt 256); ("waveform", KEnum "Waveform.saw"); ("freq", KInt 128);
         ("duty_cycle", KInt 64); ("generator", KBool false); ("x", KInt 256);
         ("y", KInt 128); ("color", KColor 255 220 80)];
    lfo_amp ← new_module p6 Amplifier "LFO Pump"
        [("volume", KInt 256); ("x", KInt 512); ("y", KInt 128);
         ("color", KColor 180 255 180)];
    lfo >> lfo_bass;;
    o ← output p6;
    lfo_bass >> lfo_amp >>> o;;
    lfo_bass_pattern ← new_Pattern "Bass" 32 1;
    attach_pattern p6 lfo_bass_pattern;;
    set_note lfo_bass_pattern 0 0 NOTE.C3;;
    set_vel lfo_bass_pattern 0 0 100;;
    set_module lfo_bass_pattern 0 0 (index lfo_bass + 1);;
    let output_path := os_path_join (script_dir env) "sidechain_lfo_fake.sunvox" in
    open_wb_write_to output_path p6.

Definition generate_examples_py : Py unit :=
    sidechain_basic_edm;;
    sidechain_vocal_clarity;;
    sidechain_rhythmic_gate;;
    sidechain_multiband;;
    sidechain_inverse;;
    sidechain_lfo_fake.

  (** ** [create_modular_construction.py] *)

Definition output_dir : string := "/home/user/Way-of-SunVox/modular_construction".

  (** Building Block 1: Kick Drum *)
Definition layer1_kick : Py unit :=
    kick_module ← new_project;
    set_name kick_module "Kick Module";;
    kick ← new_module kick_module Kicker "Kick"
        [("vol", KInt 256); ("boost", KInt 220); ("release", KInt 100); ("x", KInt 256);
         ("y", KInt 256); ("color", KColor 255 80 80)];
    kick_comp ← new_module kick_module Compressor "Kick Comp"
        [("volume", KInt 256); ("threshold", KInt 170); ("slope", KInt 0);
         ("attack", KInt 1); ("release", KInt 80); ("x", KInt 384); ("y", KInt 256);
         ("color", KColor 255 120 120)];
    o ← output kick_module;
    kick >> kick_comp >>> o;;
    kick_pattern ← new_Pattern "Four on Floor" 32 1;
    attach_pattern kick_module kick_pattern;;
    for_ [0; 8; 16; 24] (λ line,
      set_note kick_pattern line 0 NOTE.C5;;
      set_vel kick_pattern line 0 120;;
      set_module kick_pattern line 0 (index kick + 1));;
    open_wb_write_to (output_dir +:+ "/layer1_kick.sunvox") kick_module.

  (** Building Block 2: Bass Synth *)
Definition layer1_bass : Py unit :=
    bass_module ← new_project;
    set_name bass_module "Bass Module";;
    bass ← new_module bass_module AnalogGenerator "Sub Bass"
        [("waveform", KEnum "Waveform.sin"); ("volume", KInt 220); ("attack", KInt 5);
         ("release", KInt 150); ("sustain", KBool true);
         ("filter", KEnum "Filter.lp_12db"); ("filter_cutoff", KInt 100);
         ("x", KInt 256); ("y", KInt 256); ("color", KColor 80 120 255)];
    bass_filter ← new_module bass_module Filter "Bass Filter"
        [("type", KEnum "Type.lp"); ("freq", KInt 120); ("resonance", KInt 80);
         ("x", KInt 384); ("y", KInt 256); ("color", KColor 120 160 255)];
    o ← output bass_module;
    bass >> bass_filter >>> o;;
    bass_pattern ← new_Pattern "Bass A" 32 1;
    attach_pattern bass_module bass_pattern;;
    set_note bass_pattern 0 0 NOTE.A2;;
    set_vel bass_pattern 0 0 100;;
    set_module bass_pattern 0 0 (index bass + 1);;
    set_note bass_pattern 30 0 NOTECMD.NOTE_OFF;;
    set_module bass_pattern 30 0 (index bass + 1);;
    open_wb_write_to (output_dir +:+ "/layer1_bass.sunvox") bass_module.

  (** Building Block 3: Chord Synth *)
Definition layer1_chords : Py unit :=
    chord_module ← new_project;
    set_name chord_module "Chord Module";;
    chord_synth ← new_module chord_module Fm "FM Chords"
        [("c_volume", KInt 180); ("m_volume", KInt 100); ("c_freq_ratio", KInt 1);
         ("m_freq_ratio", KInt 2); ("attack", KInt 120); ("release", KInt 180);
         ("sustain", KBool true); ("x", KInt 256); ("y", KInt 256);
         ("color", KColor 180 120 255)];
    chord_reverb ← new_module chord_module Reverb "Reverb"
        [("volume", KInt 256); ("dryout", KInt 200); ("wetout", KInt 80);
         ("x", KInt 384); ("y", KInt 256); ("color", KColor 200 140 255)];
    o ← output chord_module;
    chord_synth >> chord_reverb >>> o;;
    chord_pattern ← new_Pattern "Am Chord" 32 3;
    attach_pattern chord_module chord_pattern;;
    set_note chord_pattern 0 0 NOTE.A3;;
    set_vel chord_pattern 0 0 80;;
    set_module chord_pattern 0 0 (index chord_synth + 1);;
    set_note chord_pattern 0 1 NOTE.C4;;
    set_vel chord_pattern 0 1 75;;
    set_module chord_pattern 0 1 (index chord_synth + 1);;
    set_note chord_pattern 0 2 NOTE.E4;;
    set_vel chord_pattern 0 2 75;;
    set_module chord_pattern 0 2 (index chord_synth + 1);;
    open_wb_write_to (output_dir +:+ "/layer1_chords.sunvox") chord_module.

  (** Building Block 4: Hi-Hat *)
Definition layer1_hihat : Py unit :=
    hihat_module ← new_project;
    set_name hihat_module "HiHat Module";;
    hihat ← new_module hihat_module DrumSynth "HiHats"
        [("bass_volume", KInt 0); ("hihat_volume", KInt 220); ("snare_volume", KInt 0);
         ("x", KInt 256); ("y", KInt 256); ("color", KColor 255 220 100)];
    o ← output hihat_module;
    hihat >> o;;
    hihat_pattern ← new_Pattern "Hats 8th" 32 1;
    attach_pattern hihat_module hihat_pattern;;
    for_ (range 0 32 4) (λ line,
      set_note hihat_pattern line 0 NOTE.C5;;
      set_vel hihat_pattern line 0 85;;
      set_module hihat_pattern line 0 (index hihat + 1));;
    open_wb_write_to (output_dir +:+ "/layer1_hihat.sunvox") hihat_module.

  (** Section 1: Rhythm Section *)
Definition layer2_rhythm_section : Py unit :=
    rhythm_section ← new_project;
    set_name rhythm_section "Rhythm Section";;
    set_initial_bpm rhythm_section 125;;
    kick_meta ← new_module rhythm_section Kicker "KICK (Load layer1_kick.sunvox here)"
        [("vol", KInt 256); ("boost", KInt 220); ("x", KInt 256); ("y", KInt 200);
         ("color", KColor 255 100 100)];
    hihat_meta ← new_module rhythm_section DrumSynth "HIHAT (Load layer1_hihat.sunvox here)"
        [("bass_volume", KInt 0); ("hihat_volume", KInt 220); ("snare_volume", KInt 0);
         ("x", KInt 256); ("y", KInt 320); ("color", KColor 255 220 100)];
    rhythm_mix ← new_module rhythm_section Amplifier "Rhythm Mix"
        [("volume", KInt 256); ("x", KInt 450); ("y", KInt 260);
         ("color", KColor 200 200 200)];
    o ← output rhythm_section;
    kick_meta >> rhythm_mix >>> o;;
    o ← output rhythm_section;
    hihat_meta >> rhythm_mix >>> o;;
    kick_pat ← new_Pattern "Kick Pattern" 32 1;
    attach_pattern rhythm_section kick_pat;;
    for_ [0; 8; 16; 24] (λ line,
      set_note kick_pat line 0 NOTE.C5;;
      set_vel kick_pat line 0 120;;
      set_module kick_pat line 0 (index kick_meta + 1));;
    hihat_pat ← new_Pattern "HiHat Pattern" 32 1;
    attach_pattern rhythm_section hihat_pat;;
    for_ (range 0 32 4) (λ line,
      set_note hihat_pat line 0 NOTE.C5;;
      set_vel hihat_pat line 0 85;;
      set_module hihat_pat line 0 (index hihat_meta + 1));;
    open_wb_write_to (output_dir +:+ "/layer2_rhythm_section.sunvox") rhythm_section.

  (** Section 2: Harmonic Section *)
Definition layer2_harmonic_section : Py unit :=
    harmonic_section ← new_project;
    set_name harmonic_section "Harmonic Section";;
    set_initial_bpm harmonic_section 125;;
    bass_meta ← new_module harmonic_section AnalogGenerator "BASS (Load layer1_bass.sunvox here)"
        [("waveform", KEnum "Waveform.sin"); ("volume", KInt 220); ("x", KInt 256);
         ("y", KInt 200); ("color", KColor 100 150 255)];
    chords_meta ← new_module harmonic_section Fm "CHORDS (Load layer1_chords.sunvox here)"
        [("c_volume", KInt 180); ("m_volume", KInt 100); ("x", KInt 256);
         ("y", KInt 320); ("color", KColor 180 140 255)];
    harmonic_mix ← new_module harmonic_section Amplifier "Harmonic Mix"
        [("volume", KInt 256); ("x", KInt 450); ("y", KInt 260);
         ("color", KColor 200 200 200)];
    o ← output harmonic_section;
    bass_meta >> harmonic_mix >>> o;;
    o ← output harmonic_section;
    chords_meta >> harmonic_mix >>> o;;
    bass_pat ← new_Pattern "Bass A" 32 1;
    attach_pattern harmonic_section bass_pat;;
    set_note bass_pat 0 0 NOTE.A2;;
    set_vel bass_pat 0 0 100;;
    set_module bass_pat 0 0 (index bass_meta + 1);;
    chord_pat ← new_Pattern "Am Chord" 32 3;
    attach_pattern harmonic_section chord_pat;;
    set_note chord_pat 0 0 NOTE.A3;;
    set_vel chord_pat 0 0 80;;
    set_module chord_pat 0 0 (index chords_meta + 1);;
    set_note chord_pat 0 1 NOTE.C4;;
    set_vel chord_pat 0 1 75;;
    set_module chord_pat 0 1 (index chords_meta + 1);;
    set_note chord_pat 0 2 NOTE.E4;;
    set_vel chord_pat 0 2 75;;
    set_module chord_pat 0 2 (index chords_meta + 1);;
    open_wb_write_to (output_dir +:+ "/layer2_harmonic_section.sunvox") harmonic_section.

  (** Layer 3: the final track, built on placeholders for the Layer 2 sections *)
Definition layer3_final_track : Py unit :=
    final_track ← new_project;
    set_name final_track "Modular House Track - Layer 3";;
    set_initial_bpm final_track 125;;
    rhythm_meta ← new_module final_track Amplifier "RHYTHM SECTION (Load layer2_rhythm_section.sunvox)"
        [("volume", KInt 256); ("x", KInt 200); ("y", KInt 200);
         ("color", KColor 255 150 150)];
    harmonic_meta ← new_module final_track Amplifier "HARMONIC SECTION (Load layer2_harmonic_section.sunvox)"
        [("volume", KInt 230); ("x", KInt 200); ("y", KInt 350);
         ("color", KColor 150 180 255)];
    master_comp ← new_module final_track Compressor "Master Glue"
        [("volume", KInt 256); ("threshold", KInt 200); ("slope", KInt 0);
         ("attack", KInt 10); ("release", KInt 150); ("x", KInt 450); ("y", KInt 275);
         ("color", KColor 255 255 150)];
    o ← output final_track;
    rhythm_meta >> master_comp >>> o;;
    o ← output final_track;
    harmonic_meta >> master_comp >>> o;;
    track_pattern ← new_Pattern "Full Track" 128 2;
    attach_pattern final_track track_pattern;;
    set_note track_pattern 0 0 NOTE.C5;;
    set_vel track_pattern 0 0 100;;
    set_module track_pattern 0 0 (index rhythm_meta + 1);;
    set_note track_pattern 0 1 NOTE.C5;;
    set_vel track_pattern 0 1 100;;
    set_module track_pattern 0 1 (index harmonic_meta + 1);;
    open_wb_write_to (output_dir +:+ "/layer3_final_track.sunvox") final_track.

Definition create_modular_construction_py : Py unit :=
    os_makedirs output_dir;;
    layer1_kick;;
    layer1_bass;;
    layer1_chords;;
    layer1_hihat;;
    layer2_rhythm_section;;
    layer2_harmonic_section;;
    layer3_final_track.

End Scripts.

(* ================================================================== *)
(** * 6. Observing a run *)

(** A script is run from the empty world; [outcome] is how it ended and
    [run] the world it left. *)
Definition outcome (s : Py unit) : Exn + unit := (s empty_world).1.
Definition run (s : Py unit) : World := (s empty_world).2.

(** An environment in which the operating system grants every open. *)
Definition granted (args : list string) (vars : list (string * string))
    (dir : string) : Env :=
  mkEnv args vars dir (λ _, true).

(** The cells of a pattern with their coordinates [(line, track, cell)]. *)
Definition cells (P : Pattern) : list (nat * nat * Note) :=
  mjoin (imap (λ l row, imap (λ t c, (l, t, c)) row) (data P)).

(** The projects of a world, each with the pattern objects attached to it. *)
Definition songs (w : World) : list (Project * list Pattern) :=
  (λ P, (P, attached w P)) <$> projects w.

(** The worlds the three scripts leave, and every project they generate. *)
Definition runs (write_to : Project → list Pattern → list byte) (e : Env)
    : list World :=
  [ run (basic_house_track_py write_to e);
    run (generate_examples_py write_to e);
    run (create_modular_construction_py write_to e) ].

Definition generated (write_to : Project → list Pattern → list byte) (e : Env)
    : list (Project * list Pattern) :=
  runs write_to e ≫= songs.

(** The project that owns the pattern behind handle [h]. *)
Definition owner (w : World) (h : nat) : option Project :=
  snd <$> list_find (λ P, h ∈ patterns P) (projects w).

(** The names the scripts give their four-on-the-floor kick patterns. *)
Definition kick_names : list string :=
  ["Kick"; "Intro Kick"; "Four on Floor"; "Kick Pattern"].

Definition beats : list nat := [0; 8; 16; 24].

(** ** Notes in time *)

(** Modelled from the spec: what a track is playing, line by line.  The
    playback engine is not part of the repository; the spec says that a
    note-on starts a note on its track, that "placing a note-off command
    at a later line on the same track/module stops the sustained note",
    and that an empty cell changes nothing. *)
Definition step_track (playing : option Note) (c : Note) : option Note :=
  match note c with
  | Key _ _ => Some c
  | NOTE_OFF =>
      match playing with
      | Some on => if decide (module on = module c) then None else playing
      | None => None
      end
  | EMPTY => playing
  end.

(** The note sounding on [track] once line [line] has been played. *)
Definition sounding (P : Pattern) (track line : nat) : option Note :=
  foldl step_track None (omap (λ row, row !! track) (take (S line) (data P))).

Definition active (P : Pattern) (track line : nat) : Prop :=
  is_Some (sounding P track line).




(** ** The signal graph *)

Definition edge (P : Project) (a b : nat) : Prop := (a, b) ∈ module_connections P.

(** A connection path: zero or more edges. *)
Definition path (P : Project) : nat → nat → Prop := rtc (edge P).

Definition reaches_output (P : Project) (m : Module) : Prop :=
  ∃ o, o ∈ modules P ∧ mtype o = Output ∧ path P (index m) (index o).

(** A module used purely as a control source: a Sound2Ctl module, or a
    generator silenced with [vol=0] that only serves as a trigger. *)
Definition control_source (m : Module) : Prop :=
  mtype m = Sound2Ctl ∨ kwarg "vol" m = Some (KInt 0).

(** The processors a sidechain is meant to modulate. *)
Definition consumer (m : Module) : Prop :=
  mtype m = Compressor ∨ mtype m = Amplifier.

Definition routed_to_consumer (P : Project) (m : Module) : Prop :=
  ∃ c, c ∈ modules P ∧ consumer c ∧ edge P (index m) (index c).

(** Successors of a set of nodes, and the nodes found from [S] in at most
    [fuel] rounds. *)
Definition successors (E : list (nat * nat)) (S : list nat) : list nat :=
  snd <$> filter (λ e, e.1 ∈ S) E.

Fixpoint closure (fuel : nat) (E : list (nat * nat)) (S : list nat) : list nat :=
  match fuel with
  | 0 => S
  | S n => closure n E (S ++ successors E S)
  end.

Definition closed (E : list (nat * nat)) (S : list nat) : Prop :=
  Forall (λ e, e.1 ∈ S → e.2 ∈ S) E.

Definition found_from (P : Project) (a : nat) : list nat :=
  closure (length (module_connections P)) (module_connections P) [a].

(** ** Sequences of library calls *)

(** One call of the library (or of the file system) on a world, whatever
    its arguments and whether or not it raises. *)
Inductive lib_step (write_to : Project → list Pattern → list byte) (e : Env)
    (w : World) : World → Prop :=
  | step_new_project : lib_step write_to e w (new_project w).2
  | step_set_name p s : lib_step write_to e w (set_name p s w).2
  | step_set_initial_bpm p n : lib_step write_to e w (set_initial_bpm p n w).2
  | step_set_initial_tpl p n : lib_step write_to e w (set_initial_tpl p n w).2
  | step_set_sunvox_version p v : lib_step write_to e w (set_sunvox_version p v w).2
  | step_set_based_on_version p v : lib_step write_to e w (set_based_on_version p v w).2
  | step_output p : lib_step write_to e w (output p w).2
  | step_new_module p cls nm kw : lib_step write_to e w (new_module p cls nm kw w).2
  | step_rshift a b : lib_step write_to e w (rshift a b w).2
  | step_new_Pattern nm nl nt : lib_step write_to e w (new_Pattern nm nl nt w).2
  | step_attach_pattern p h : lib_step write_to e w (attach_pattern p h w).2
  | step_set_cell h l t a : lib_step write_to e w (set_cell h l t a w).2
  | step_write file p : lib_step write_to e w (open_wb_write_to write_to e file p w).2
  | step_makedirs d : lib_step write_to e w (os_makedirs e d w).2.

(** Every module sits in the slot its index names. *)
Definition indexed (w : World) : Prop :=
  ∀ p P i m, projects w !! p = Some P → modules P !! i = Some m → index m = i.

(** ** A concrete run, for examples *)

Definition sample_write_to (P : Project) (pats : list Pattern) : list byte := [].
Definition sample_env : Env :=
  granted [] [] "/home/user/Way-of-SunVox/8--Techniques/Sidechain-Compression".

#[global] Instance Pattern_eq_dec : EqDecision Pattern.
Proof. solve_decision. Defined.
#[global] Instance Project_eq_dec : EqDecision Project.
Proof. solve_decision. Defined.

(** The [i]-th project of the sample runs (house track first, then the six
    sidechain examples, then the seven modular files) and its [j]-th
    pattern. *)
Definition sample_song (i : nat) : Project * list Pattern :=
  default (empty_project 0, []) (generated sample_write_to sample_env !! i).
Definition sample_pattern (i j : nat) : Pattern :=
  default (new_pattern "" 0 0) ((sample_song i).2 !! j).

(** The world the sidechain script leaves in the sample environment. *)
Definition sample_sidechain : World :=
  run (generate_examples_py sample_write_to sample_env).

(** ** The shapes the claims speak of *)

(** Exactly the cells on the four beats of track 0 hold a note-on; every
    other cell of the 32 by 1 matrix is empty. *)
Definition four_on_the_floor (P : Pattern) : Prop :=
  lines P = 32 ∧ tracks P = 1 ∧
  (∀ l t, is_Some (cell_at P l t) ↔ l < 32 ∧ t < 1) ∧
  (∀ l t c, cell_at P l t = Some c →
     (l ∈ beats → is_note_on (note c) = true) ∧ (l ∉ beats → c = empty_cell)).

(** A note-on at line 0 and a note-off for the same module at line 30 of
    track [t]. *)
Definition sustained_to_30 (P : Pattern) (t : nat) : Prop :=
  ∃ c0 c30, cell_at P 0 t = Some c0 ∧ is_note_on (note c0) = true ∧
    cell_at P 30 t = Some c30 ∧ note c30 = NOTE_OFF ∧ module c30 = module c0.

(** The most recent note-on on track [t] strictly before line [l]. *)
Definition last_note_on (P : Pattern) (t l : nat) : option Note :=
  last (filter (λ c, is_note_on (note c) = true)
          (omap (λ row, row !! t) (take l (data P)))).

Definition is_vel_write (e : CellWrite) : bool :=
  match w_attr e with AttrVel _ => true | _ => false end.

Definition same_cell (e : CellWrite) (h l t : nat) : Prop :=
  w_pattern e = h ∧ w_line e = l ∧ w_track e = t.

(** The write lands inside the matrix the pattern was declared with. *)
Definition in_bounds (w : World) (e : CellWrite) : Prop :=
  ∃ P, pattern_store w !! w_pattern e = Some P ∧
       w_line e < lines P ∧ w_track e < tracks P.

(** The cell a write touched targets a module of the project that owns
    the pattern, by its index plus one. *)
Definition targets_own_module (w : World) (e : CellWrite) : Prop :=
  ∃ P pat c m,
    owner w (w_pattern e) = Some P ∧
    pattern_store w !! w_pattern e = Some pat ∧
    cell_at pat (w_line e) (w_track e) = Some c ∧
    m ∈ modules P ∧ module c = index m + 1 ∧ module c ≠ 0.

(** The files each script is written to produce, by name. *)
Definition house_path : string := "/home/user/Way-of-SunVox/basic_house_track.sunvox".
Definition sidechain_files : list string :=
  ["sidechain_basic_edm.sunvox"; "sidechain_vocal_clarity.sunvox";
   "sidechain_rhythmic_gate.sunvox"; "sidechain_multiband.sunvox";
   "sidechain_inverse.sunvox"; "sidechain_lfo_fake.sunvox"].
Definition modular_files : list string :=
  ["/layer1_kick.sunvox"; "/layer1_bass.sunvox"; "/layer1_chords.sunvox";
   "/layer1_hihat.sunvox"; "/layer2_rhythm_section.sunvox";
   "/layer2_harmonic_section.sunvox"; "/layer3_final_track.sunvox"].

(** What a run left on disk, as the serialisation of its projects. *)
Definition serialised (write_to : Project → list Pattern → list byte) (w : World)
    : list (list byte) :=
  (λ s, write_to s.1 s.2) <$> songs w.

Definition is_sustained_to_30 (P : Pattern) (t : nat) : bool :=
  match cell_at P 0 t, cell_at P 30 t with
  | Some c0, Some c30 =>
      is_note_on (note c0) && bool_decide (note c30 = NOTE_OFF)
      && bool_decide (module c30 = module c0)
  | _, _ => false
  end.

(** The cells of track [t], top to bottom, with their line numbers. *)
Definition column (P : Pattern) (t : nat) : list (nat * Note) :=
  omap id (imap (λ l row, (λ c, (l, c)) <$> row !! t) (data P)).


#[global] Instance attr_eq_dec : EqDecision attr.
Proof. solve_decision. Defined.
#[global] Instance CellWrite_eq_dec : EqDecision CellWrite.
Proof. solve_decision. Defined.

Definition sample_module (i j : nat) : Module :=
  default (mkModule Output "" [] 0 0) (modules (sample_song i).1 !! j).

(** What one library call can do to the store of projects: nothing, a
    change that leaves the modules of every project alone, a new module
    appended to one project under the next free index, or a new project. *)
Inductive proj_effect (ps : list Project) : list Project → Prop :=
  | eff_same : proj_effect ps ps
  | eff_keep p f :
      (∀ P, modules (f P) = modules P) → proj_effect ps (alter f p ps)
  | eff_new_module p P cls nm kw :
      ps !! p = Some P →
      proj_effect ps
        (alter (with_modules (λ ms, ms ++ [mkModule cls nm kw (length (modules P)) p])) p ps)
  | eff_new_project : proj_effect ps (ps ++ [empty_project (length ps)]).

(** A small world for examples: one project with a kick drum. *)
Definition one_project : World := (new_project empty_world).2.
Definition one_kick : World := (new_module 0 Kicker "Kick" [] one_project).2.


(* ================================================================== *)
(** * 6b. Further notions *)

(** ** Opens that are refused *)

(** The paths a run gets to open before the first refusal, and the path
    at which it is refused. *)
Fixpoint leading (ok : string → bool) (paths : list string) : list string :=
  match paths with
  | [] => []
  | p :: ps => if ok p then p :: leading ok ps else []
  end.

Fixpoint first_refused (ok : string → bool) (paths : list string) : option string :=
  match paths with
  | [] => None
  | p :: ps => if ok p then first_refused ok ps else Some p
  end.

(** How a run ends when its opens are [paths], in this order. *)
Definition ending (ok : string → bool) (paths : list string) : Exn + unit :=
  match first_refused ok paths with
  | Some p => inl (OSError p)
  | None => inr tt
  end.

(** ** Cell writes as data *)

(** A pattern after one attribute assignment at [(l, t)]; out of range the
    pattern is as before. *)
Definition write_cell (P : Pattern) (l t : nat) (a : attr) : Pattern :=
  with_data (alter (alter (assign a) t) l) P.

Definition apply_writes (P : Pattern) (ws : list (nat * nat * attr)) : Pattern :=
  foldl (λ Q x, write_cell Q x.1.1 x.1.2 x.2) P ws.

(** The assignments [ws], in order, on the pattern behind [pat]. *)
Definition write_all (pat : nat) (ws : list (nat * nat * attr)) : Py unit :=
  for_ ws (λ x, set_cell pat x.1.1 x.1.2 x.2).

Definition as_trace (pat : nat) (ws : list (nat * nat * attr)) : list CellWrite :=
  (λ x, mkWrite pat x.1.1 x.1.2 x.2) <$> ws.

(** A world in which only the pattern behind [pat] and the trace moved. *)
Definition after_writes (w : World) (pat : nat) (P : Pattern)
    (ws : list (nat * nat * attr)) : World :=
  mkWorld (projects w) (<[pat := apply_writes P ws]> (pattern_store w))
    (written w) (made_dirs w) (trace w ++ as_trace pat ws).

(** ** The loops of the scripts, on their own *)

(** The four-on-the-floor loop, as it stands in all three scripts
    ([for line in [0, 8, 16, 24]: ...]), for the pattern, the velocity and
    the kick module of the place. *)
Definition kick_loop (kick_pattern : nat) (velocity : nat) (kick : Module) : Py unit :=
  for_ [0; 8; 16; 24] (λ line,
    set_note kick_pattern line 0 NOTE.C5;;
    set_vel kick_pattern line 0 velocity;;
    set_module kick_pattern line 0 (index kick + 1)).

(** The lead melody loop of [basic_house_track.py], for any melody. *)
Definition lead_loop (lead_pattern : nat) (lead : Module)
    (melody_notes : list (nat * note_value * nat)) : Py unit :=
  for_ melody_notes (λ '(line, note, vel),
    set_note lead_pattern line 0 note;;
    set_vel lead_pattern line 0 vel;;
    set_module lead_pattern line 0 (index lead + 1);;
    when_ (line + 6 <? 64) (
      set_note lead_pattern (line + 6) 0 NOTECMD.NOTE_OFF;;
      set_module lead_pattern (line + 6) 0 (index lead + 1))).

(** The assignments one melody note stands for. *)
Definition lead_writes (lead : Module) (x : nat * note_value * nat)
    : list (nat * nat * attr) :=
  [(x.1.1, 0, AttrNote x.1.2); (x.1.1, 0, AttrVel x.2);
   (x.1.1, 0, AttrModule (index lead + 1))]
  ++ (if x.1.1 + 6 <? 64
      then [(x.1.1 + 6, 0, AttrNote NOTE_OFF);
            (x.1.1 + 6, 0, AttrModule (index lead + 1))]
      else []).

Definition kick_writes (velocity : nat) (kick : Module) (line : nat)
    : list (nat * nat * attr) :=
  [(line, 0, AttrNote NOTE.C5); (line, 0, AttrVel velocity);
   (line, 0, AttrModule (index kick + 1))].

(** Small worlds for examples: one empty pattern of 32 (of 16, of 64)
    lines and one track. *)
Definition one_pattern (nlines : nat) : World :=
  (new_Pattern "Example" nlines 1 empty_world).2.
Definition sample_kick : Module := mkModule Kicker "Kick" [] 1 0.

(** A short melody whose last note lies too low in the pattern for its
    note-off to fit. *)
Definition sample_melody : list (nat * note_value * nat) :=
  [(0, NOTE.E5, 90); (56, NOTE.A4, 85); (60, NOTE.C5, 80)].

(** ** Shapes of what the scripts leave *)

(** Which attribute of which cell an assignment writes. *)
Definition write_key (e : CellWrite) : nat * nat * nat * nat :=
  (w_pattern e, w_line e, w_track e,
   match w_attr e with AttrNote _ => 0 | AttrVel _ => 1 | AttrModule _ => 2 end).

(** The assignment is still in its cell. *)
Definition survives (w : World) (e : CellWrite) : Prop :=
  ∃ P c, pattern_store w !! w_pattern e = Some P ∧
         cell_at P (w_line e) (w_track e) = Some c ∧ assign (w_attr e) c = c.

(** A cell is empty, a note-on with a velocity and a target, or a
    note-off with a target and no velocity. *)
Definition event_shaped (c : Note) : Prop :=
  c = empty_cell ∨
  (is_note_on (note c) = true ∧ vel c ≠ 0 ∧ module c ≠ 0) ∨
  (note c = NOTE_OFF ∧ vel c = 0 ∧ module c ≠ 0).

(** All handles of attached patterns of a world, project by project. *)
Definition attached_handles (w : World) : list nat := projects w ≫= patterns.

(** The melody of [basic_house_track.py] and the world its script leaves
    in the sample environment. *)
Definition house_melody : list (nat * note_value * nat) :=
  [(0, NOTE.E5, 90); (8, NOTE.C5, 85); (16, NOTE.A4, 90); (24, NOTE.C5, 85);
   (32, NOTE.F5, 90); (40, NOTE.E5, 85); (48, NOTE.C5, 90); (56, NOTE.A4, 85)].
Definition sample_house : World :=
  run (basic_house_track_py sample_write_to sample_env).

(** The hi-hat loop of the scripts ([for line in range(0, stop, step): ...]),
    for the pattern, the range, the velocity and the drum module of the
    place. *)
Definition hat_loop (hihat_pattern : nat) (stop step velocity : nat)
    (hihat : Module) : Py unit :=
  for_ (range 0 stop step) (λ line,
    set_note hihat_pattern line 0 NOTE.C5;;
    set_vel hihat_pattern line 0 velocity;;
    set_module hihat_pattern line 0 (index hihat + 1)).

(* ================================================================== *)
(** * 7. Properties *)

(** ** Cells and lists *)

Lemma cell_at_cells P l t c : cell_at P l t = Some c ↔ (l, t, c) ∈ cells P.
Proof.
  unfold cell_at, cells. split.
  - intros H. destruct (data P !! l) as [row|] eqn:Hr; simpl in H; [|done].
    apply list_elem_of_join. exists (imap (λ t c, (l, t, c)) row). split.
    + apply elem_of_lookup_imap. eauto.
    + apply elem_of_lookup_imap. eauto.
  - intros H. apply list_elem_of_join in H as (r & Hin & Hr).
    apply elem_of_lookup_imap in Hr as (l' & row & -> & Hrow).
    apply elem_of_lookup_imap in Hin as (t' & c' & [= -> -> ->] & Hc).
    by rewrite Hrow.
Qed.

Lemma Forall_cells (Q : nat → nat → Note → Prop) P :
  Forall (λ x, Q x.1.1 x.1.2 x.2) (cells P) →
  ∀ l t c, cell_at P l t = Some c → Q l t c.
Proof.
  intros HF l t c Hc. apply cell_at_cells in Hc.
  rewrite Forall_forall in HF. exact (HF _ Hc).
Qed.

Lemma cell_at_is_Some P n k :
  length (data P) = n → Forall (λ row, length row = k) (data P) →
  ∀ l t, is_Some (cell_at P l t) ↔ l < n ∧ t < k.
Proof.
  intros Hn Hk l t. unfold cell_at. split.
  - intros [c Hc]. destruct (data P !! l) as [row|] eqn:Hr; simpl in Hc; [|done].
    rewrite Forall_forall in Hk.
    pose proof (Hk row (list_elem_of_lookup_2 _ _ _ Hr)) as Hlen.
    apply lookup_lt_Some in Hr, Hc. lia.
  - intros [Hl Ht]. rewrite <- Hn in Hl.
    apply lookup_lt_is_Some_2 in Hl as [row Hr]. rewrite Hr. simpl.
    rewrite Forall_forall in Hk.
    pose proof (Hk row (list_elem_of_lookup_2 _ _ _ Hr)) as Hlen.
    apply lookup_lt_is_Some_2. lia.
Qed.

(** ** Four-on-the-floor kick patterns *)

Section Kick.
  Variable write_to : Project → list Pattern → list byte.
  Variables (args : list string) (vars : list (string * string)) (dir : string).

  (** C3.  Every generated kick pattern is a 32-line, 1-track pattern in
      which exactly the cells at lines 0, 8, 16 and 24 of track 0 hold a
      note-on event and every other cell is empty. *)
Theorem kick_patterns_four_on_the_floor s P :
    s ∈ generated write_to (granted args vars dir) → P ∈ s.2 →
    pname P ∈ kick_names →
    four_on_the_floor P.
  Proof.
    intros Hs HP Hn.
    assert (Forall (λ s : Project * list Pattern, Forall (λ P : Pattern,
      pname P ∈ kick_names →
        lines P = 32 ∧ tracks P = 1 ∧ length (data P) = 32 ∧
        Forall (λ row, length row = 1) (data P) ∧
        Forall (λ x, (x.1.1 ∈ beats → is_note_on (note x.2) = true) ∧
                     (x.1.1 ∉ beats → x.2 = empty_cell)) (cells P)) s.2)
      (generated write_to (granted args vars dir))) as HF by compute_done.
    rewrite Forall_forall in HF. specialize (HF s Hs).
    rewrite Forall_forall in HF.
    destruct (HF P HP Hn) as (Hl & Ht & Hlen & Hrows & Hcells).
    split; [done|]. split; [done|].
    split; [by apply (cell_at_is_Some P 32 1)|].
    intros l t c Hc.
    exact (Forall_cells (λ l _ c, (l ∈ beats → is_note_on (note c) = true) ∧
                                  (l ∉ beats → c = empty_cell)) P Hcells l t c Hc).
  Qed.

  (** The scripts generate seven such patterns. *)
Lemma kick_patterns_count :
    length (filter (λ P, pname P ∈ kick_names)
              (generated write_to (granted args vars dir) ≫= snd)) = 7.
  Proof. compute_done. Qed.
End Kick.

(** The kick pattern of the first sidechain example is one of them. *)
Lemma kick_patterns_witness :
  sample_song 1 ∈ generated sample_write_to sample_env ∧
  sample_pattern 1 0 ∈ (sample_song 1).2 ∧
  pname (sample_pattern 1 0) ∈ kick_names ∧
  four_on_the_floor (sample_pattern 1 0).
Proof.
  assert (H1 : sample_song 1 ∈ generated sample_write_to sample_env) by compute_done.
  assert (H2 : sample_pattern 1 0 ∈ (sample_song 1).2) by compute_done.
  assert (H3 : pname (sample_pattern 1 0) ∈ kick_names) by compute_done.
  exact (conj H1 (conj H2 (conj H3
    (kick_patterns_four_on_the_floor sample_write_to [] []
       "/home/user/Way-of-SunVox/8--Techniques/Sidechain-Compression"
       (sample_song 1) (sample_pattern 1 0) H1 H2 H3)))).
Defined.

(** ** Sustained bass notes *)

Lemma sustained_to_30_test P t :
  sustained_to_30 P t → is_sustained_to_30 P t = true.
Proof.
  intros (c0 & c30 & H0 & Hon & H30 & Hoff & Hm).
  unfold is_sustained_to_30. rewrite H0, H30, Hon. simpl.
  by rewrite !bool_decide_eq_true_2.
Qed.

Lemma cell_at_track_bound P k l t c :
  Forall (λ row, length row = k) (data P) → cell_at P l t = Some c → t < k.
Proof.
  intros Hk Hc. unfold cell_at in Hc.
  destruct (data P !! l) as [row|] eqn:Hr; simpl in Hc; [|done].
  rewrite Forall_forall in Hk.
  pose proof (Hk row (list_elem_of_lookup_2 _ _ _ Hr)).
  apply lookup_lt_Some in Hc. lia.
Qed.

(** Past the last line nothing more is played. *)
Lemma sounding_past_end P t n l :
  length (data P) = S n → n ≤ l → sounding P t l = sounding P t n.
Proof.
  intros Hlen Hl. unfold sounding.
  rewrite !take_ge by lia. done.
Qed.

Section Bass.
  Variable write_to : Project → list Pattern → list byte.
  Variables (args : list string) (vars : list (string * string)) (dir : string).

  (** C4.  In a generated 32-line pattern with a note-on at line 0 and a
      note-off for the same module at line 30 of the same track, the note
      is active at every line of [0, 30) and inactive from line 30 on. *)
Theorem sustained_bass_note_active_until_30 s P t l :
    s ∈ generated write_to (granted args vars dir) → P ∈ s.2 →
    lines P = 32 → sustained_to_30 P t →
    (l < 30 → active P t l) ∧ (30 ≤ l → ¬ active P t l).
  Proof.
    intros Hs HP Hl Hsus.
    assert (Forall (λ s : Project * list Pattern, Forall (λ P : Pattern,
      lines P = 32 →
        length (data P) = 32 ∧
        Forall (λ row, length row = tracks P) (data P) ∧
        Forall (λ t, is_sustained_to_30 P t = true →
          Forall (λ l, (l < 30 → is_Some (sounding P t l)) ∧
                       (30 ≤ l → sounding P t l = None)) (seq 0 32))
          (seq 0 (tracks P))) s.2)
      (generated write_to (granted args vars dir))) as HF by compute_done.
    rewrite Forall_forall in HF. specialize (HF s Hs).
    rewrite Forall_forall in HF.
    destruct (HF P HP Hl) as (Hlen & Hrows & Htracks).
    assert (t < tracks P) as Ht.
    { destruct Hsus as (c0 & _ & H0 & _). by eapply cell_at_track_bound. }
    rewrite Forall_forall in Htracks.
    assert (t ∈ seq 0 (tracks P)) as Hin by (apply elem_of_seq; lia).
    pose proof (Htracks t Hin (sustained_to_30_test P t Hsus)) as Hall.
    rewrite Forall_forall in Hall.
    destruct (decide (l < 32)) as [Hlt|Hge].
    - assert (l ∈ seq 0 32) as Hl32 by (apply elem_of_seq; lia).
      destruct (Hall l Hl32) as [Ha Hb]. split; [exact Ha|].
      intros H30 [c Hc]. rewrite (Hb H30) in Hc. done.
    - split; [lia|]. intros _ [c Hc].
      rewrite (sounding_past_end P t 31 l) in Hc by lia.
      assert (31 ∈ seq 0 32) as Hl32 by (apply elem_of_seq; lia).
      destruct (Hall 31 Hl32) as [_ Hb]. rewrite Hb in Hc by lia. done.
  Qed.

  (** Two generated patterns have this shape: the bass patterns of the
      first sidechain example and of the Layer 1 bass file. *)
Lemma sustained_bass_patterns_count :
    length (filter (λ P, lines P = 32 ∧ is_sustained_to_30 P 0 = true)
              (generated write_to (granted args vars dir) ≫= snd)) = 2.
  Proof. compute_done. Qed.
End Bass.

(** The bass pattern of the first sidechain example, at line 12. *)
Lemma sustained_bass_witness :
  sample_song 1 ∈ generated sample_write_to sample_env ∧
  sample_pattern 1 1 ∈ (sample_song 1).2 ∧
  lines (sample_pattern 1 1) = 32 ∧
  sustained_to_30 (sample_pattern 1 1) 0 ∧
  (12 < 30 → active (sample_pattern 1 1) 0 12) ∧
  (30 ≤ 12 → ¬ active (sample_pattern 1 1) 0 12).
Proof.
  assert (H1 : sample_song 1 ∈ generated sample_write_to sample_env) by compute_done.
  assert (H2 : sample_pattern 1 1 ∈ (sample_song 1).2) by compute_done.
  assert (H3 : lines (sample_pattern 1 1) = 32) by reflexivity.
  assert (H4 : sustained_to_30 (sample_pattern 1 1) 0).
  { exists (mkNote NOTE.C3 100 3), (mkNote NOTE_OFF 0 3).
    split; [reflexivity|]. split; [reflexivity|].
    split; [reflexivity|]. split; reflexivity. }
  exact (conj H1 (conj H2 (conj H3 (conj H4
    (sustained_bass_note_active_until_30 sample_write_to [] []
       "/home/user/Way-of-SunVox/8--Techniques/Sidechain-Compression"
       (sample_song 1) (sample_pattern 1 1) 0 12 H1 H2 H3 H4))))).
Defined.

(** ** Successive notes on a track *)




Section Tracks.
  Variable write_to : Project → list Pattern → list byte.
  Variables (args : list string) (vars : list (string * string)) (dir : string).


  (** Tracks with a note-off exist: the bass line and the lead melody of
      the house track, and the two sustained bass patterns. *)
Lemma tracks_with_note_off_count :
    length (filter (λ P, Exists (λ z, note z.2 = NOTE_OFF) (column P 0))
              (generated write_to (granted args vars dir) ≫= snd)) = 4.
  Proof. compute_done. Qed.
End Tracks.


(** ** Cell writes *)

Lemma Exists_option_list {A} (Q : A → Prop) (o : option A) :
  Exists Q (option_list o) → ∃ x, o = Some x ∧ Q x.
Proof.
  intros H. apply Exists_exists in H as (x & Hin & HQ).
  destruct o as [y|]; simpl in Hin.
  - apply list_elem_of_singleton in Hin as ->. eauto.
  - by apply not_elem_of_nil in Hin.
Qed.

Section Writes.
  Variable write_to : Project → list Pattern → list byte.
  Variables (args : list string) (vars : list (string * string)) (dir : string).

  (** With every open granted, the three scripts run to their last
      statement: no subscript is out of range and no handle is stale. *)
Lemma scripts_run_to_completion :
    outcome (basic_house_track_py write_to (granted args vars dir)) = inr tt ∧
    outcome (generate_examples_py write_to (granted args vars dir)) = inr tt ∧
    outcome (create_modular_construction_py write_to (granted args vars dir)) = inr tt.
  Proof. repeat split; vm_compute; reflexivity. Qed.

  (** C9.  Every cell assignment the scripts perform falls inside the
      pattern it addresses: its line is below the declared number of
      lines and its track below the declared number of tracks. *)
Theorem cell_writes_in_bounds w e :
    w ∈ runs write_to (granted args vars dir) → e ∈ trace w → in_bounds w e.
  Proof.
    intros Hw He.
    assert (Forall (λ w : World, Forall (λ e : CellWrite,
      Exists (λ P, w_line e < lines P ∧ w_track e < tracks P)
        (option_list (pattern_store w !! w_pattern e))) (trace w))
      (runs write_to (granted args vars dir))) as HF by compute_done.
    rewrite Forall_forall in HF. specialize (HF w Hw).
    rewrite Forall_forall in HF.
    specialize (HF e He).
    apply Exists_option_list in HF as (P & HP & Hb). by exists P.
  Qed.

  (** C2.  Every cell the scripts write ends up with a module field that
      is the index, plus one, of a module of the project owning the
      pattern; in particular it is never 0. *)
Theorem written_cells_target_existing_modules w e :
    w ∈ runs write_to (granted args vars dir) → e ∈ trace w →
    targets_own_module w e.
  Proof.
    intros Hw He.
    assert (Forall (λ w : World, Forall (λ e : CellWrite,
      Exists (λ P : Project,
        Exists (λ pat : Pattern,
          Exists (λ c : Note,
            Exists (λ m, module c = index m + 1 ∧ module c ≠ 0) (modules P))
            (option_list (cell_at pat (w_line e) (w_track e))))
          (option_list (pattern_store w !! w_pattern e)))
        (option_list (owner w (w_pattern e)))) (trace w))
      (runs write_to (granted args vars dir))) as HF by compute_done.
    rewrite Forall_forall in HF. specialize (HF w Hw).
    rewrite Forall_forall in HF. specialize (HF e He).
    apply Exists_option_list in HF as (P & HP & HF).
    apply Exists_option_list in HF as (pat & Hpat & HF).
    apply Exists_option_list in HF as (c & Hc & HF).
    apply Exists_exists in HF as (m & Hm & Hidx & Hnz).
    by exists P, pat, c, m.
  Qed.

  (** C10.  Every note-off cell carries the module of the most recent
      note-on above it on its track, and no velocity: its [vel] is the
      default 0 and no assignment to its [vel] occurs in the run. *)
Theorem note_off_cells_match_last_note_on w h P l t c :
    w ∈ runs write_to (granted args vars dir) →
    pattern_store w !! h = Some P → cell_at P l t = Some c →
    note c = NOTE_OFF →
    (∃ c0, last_note_on P t l = Some c0 ∧ module c = module c0) ∧
    vel c = 0 ∧
    (∀ e, e ∈ trace w → same_cell e h l t → is_vel_write e = false).
  Proof.
    intros Hw HP Hc Hoff.
    assert (Forall (λ w : World, Forall (λ hP : nat * Pattern,
      Forall (λ x : nat * nat * Note,
        note x.2 = NOTE_OFF →
        Exists (λ c0, module x.2 = module c0)
          (option_list (last_note_on hP.2 x.1.2 x.1.1)) ∧
        vel x.2 = 0 ∧
        Forall (λ e, same_cell e hP.1 x.1.1 x.1.2 → is_vel_write e = false)
          (trace w))
        (cells hP.2)) (imap pair (pattern_store w)))
      (runs write_to (granted args vars dir))) as HF by compute_done.
    rewrite Forall_forall in HF. specialize (HF w Hw).
    rewrite Forall_forall in HF.
    assert ((h, P) ∈ imap pair (pattern_store w)) as Hin.
    { apply elem_of_lookup_imap. by exists h, P. }
    specialize (HF _ Hin). simpl in HF.
    rewrite Forall_forall in HF.
    apply cell_at_cells in Hc. destruct (HF _ Hc Hoff) as (Hlast & Hvel & Htr).
    simpl in Hlast, Hvel, Htr.
    apply Exists_option_list in Hlast as (c0 & Hc0 & Hm).
    split; [by exists c0|]. split; [done|].
    rewrite Forall_forall in Htr. exact Htr.
  Qed.

  (** The scripts write 18 note-off cells in all. *)
Lemma note_off_cells_count :
    length (filter (λ x, note x.2 = NOTE_OFF)
              ((generated write_to (granted args vars dir) ≫= snd) ≫= cells)) = 18.
  Proof. compute_done. Qed.
End Writes.

Lemma sample_sidechain_in_runs :
  sample_sidechain ∈ runs sample_write_to sample_env.
Proof.
  unfold runs, sample_sidechain. apply list_elem_of_further, list_elem_of_here.
Qed.

(** The note-off write at line 30 of the sidechain bass pattern. *)
Lemma cell_writes_in_bounds_witness :
  sample_sidechain ∈ runs sample_write_to sample_env ∧
  mkWrite 1 30 0 (AttrNote NOTE_OFF) ∈ trace (sample_sidechain) ∧
  in_bounds (sample_sidechain) (mkWrite 1 30 0 (AttrNote NOTE_OFF)).
Proof.
  assert (H1 : sample_sidechain ∈ runs sample_write_to sample_env)
    by exact sample_sidechain_in_runs.
  assert (H2 : mkWrite 1 30 0 (AttrNote NOTE_OFF) ∈ trace (sample_sidechain))
    by compute_done.
  exact (conj H1 (conj H2
    (cell_writes_in_bounds sample_write_to [] []
       "/home/user/Way-of-SunVox/8--Techniques/Sidechain-Compression"
       (sample_sidechain) (mkWrite 1 30 0 (AttrNote NOTE_OFF)) H1 H2))).
Defined.

(** The module write at line 8 of the sidechain kick pattern. *)
Lemma written_cells_witness :
  sample_sidechain ∈ runs sample_write_to sample_env ∧
  mkWrite 0 8 0 (AttrModule 2) ∈ trace (sample_sidechain) ∧
  targets_own_module (sample_sidechain) (mkWrite 0 8 0 (AttrModule 2)).
Proof.
  assert (H1 : sample_sidechain ∈ runs sample_write_to sample_env)
    by exact sample_sidechain_in_runs.
  assert (H2 : mkWrite 0 8 0 (AttrModule 2) ∈ trace (sample_sidechain))
    by compute_done.
  exact (conj H1 (conj H2
    (written_cells_target_existing_modules sample_write_to [] []
       "/home/user/Way-of-SunVox/8--Techniques/Sidechain-Compression"
       (sample_sidechain) (mkWrite 0 8 0 (AttrModule 2)) H1 H2))).
Defined.

(** The note-off cell at line 30 of the sidechain bass pattern. *)
Lemma note_off_cells_witness :
  sample_sidechain ∈ runs sample_write_to sample_env ∧
  pattern_store (sample_sidechain) !! 1 = Some (sample_pattern 1 1) ∧
  cell_at (sample_pattern 1 1) 30 0 = Some (mkNote NOTE_OFF 0 3) ∧
  note (mkNote NOTE_OFF 0 3) = NOTE_OFF ∧
  (∃ c0, last_note_on (sample_pattern 1 1) 0 30 = Some c0 ∧
         module (mkNote NOTE_OFF 0 3) = module c0) ∧
  vel (mkNote NOTE_OFF 0 3) = 0 ∧
  (∀ e, e ∈ trace (sample_sidechain) → same_cell e 1 30 0 → is_vel_write e = false).
Proof.
  assert (H1 : sample_sidechain ∈ runs sample_write_to sample_env)
    by exact sample_sidechain_in_runs.
  assert (H2 : pattern_store (sample_sidechain) !! 1 = Some (sample_pattern 1 1))
    by (vm_compute; reflexivity).
  assert (H3 : cell_at (sample_pattern 1 1) 30 0 = Some (mkNote NOTE_OFF 0 3))
    by (vm_compute; reflexivity).
  assert (H4 : note (mkNote NOTE_OFF 0 3) = NOTE_OFF) by reflexivity.
  exact (conj H1 (conj H2 (conj H3 (conj H4
    (note_off_cells_match_last_note_on sample_write_to [] []
       "/home/user/Way-of-SunVox/8--Techniques/Sidechain-Compression"
       (sample_sidechain) 1 (sample_pattern 1 1) 30 0 (mkNote NOTE_OFF 0 3)
       H1 H2 H3 H4))))).
Defined.

(** ** The signal graph *)

Lemma elem_of_successors E S y :
  y ∈ successors E S ↔ ∃ x, x ∈ S ∧ (x, y) ∈ E.
Proof.
  unfold successors. rewrite list_elem_of_fmap. split.
  - intros ([x y'] & -> & Hin). apply list_elem_of_filter in Hin as [HS HE].
    exists x. by split.
  - intros (x & HS & HE). exists (x, y). split; [done|].
    apply list_elem_of_filter. by split.
Qed.

Lemma closure_incl n E S x : x ∈ S → x ∈ closure n E S.
Proof.
  revert S. induction n as [|n IH]; intros S Hx; simpl; [done|].
  apply IH, elem_of_app. by left.
Qed.

(** Whatever the rounds find is connected to a starting node. *)
Lemma closure_sound n E S b :
  b ∈ closure n E S → ∃ a, a ∈ S ∧ rtc (λ x y, (x, y) ∈ E) a b.
Proof.
  revert S. induction n as [|n IH]; intros S Hb; simpl in Hb.
  { exists b. by split. }
  destruct (IH _ Hb) as (a & Ha & Hab).
  apply elem_of_app in Ha as [Ha|Ha]; [by exists a|].
  apply elem_of_successors in Ha as (x & Hx & Hxa).
  exists x. split; [done|]. by eapply rtc_l.
Qed.

(** No path leaves a set of nodes that is closed under the edges. *)
Lemma closed_no_escape E S a b :
  closed E S → a ∈ S → rtc (λ x y, (x, y) ∈ E) a b → b ∈ S.
Proof.
  intros Hcl Ha Hab. induction Hab as [|x y z Hxy _ IH]; [done|].
  apply IH. unfold closed in Hcl. rewrite Forall_forall in Hcl.
  exact (Hcl (x, y) Hxy Ha).
Qed.

Lemma found_from_path P a b : b ∈ found_from P a → path P a b.
Proof.
  intros Hb. apply closure_sound in Hb as (a' & Ha & Hab).
  apply list_elem_of_singleton in Ha as ->. exact Hab.
Qed.

Lemma path_found_from P a b :
  closed (module_connections P) (found_from P a) → path P a b → b ∈ found_from P a.
Proof.
  intros Hcl Hab. eapply closed_no_escape; [exact Hcl| |exact Hab].
  apply closure_incl, list_elem_of_singleton. done.
Qed.

(** C1, as stated, fails on the first sidechain example: its Sound2Ctl
    module "SC Trigger" is a control source, yet no edge leaves it, so
    none routes it to the compressor. *)
Lemma sound2ctl_not_routed_to_consumer :
  sample_song 1 ∈ generated sample_write_to sample_env ∧
  sample_module 1 4 ∈ modules (sample_song 1).1 ∧
  mname (sample_module 1 4) = "SC Trigger" ∧
  control_source (sample_module 1 4) ∧
  ¬ routed_to_consumer (sample_song 1).1 (sample_module 1 4).
Proof.
  split; [compute_done|]. split; [compute_done|]. split; [reflexivity|].
  split; [by left|].
  intros (c & _ & _ & Hedge).
  assert (Forall (λ e, e.1 ≠ index (sample_module 1 4))
            (module_connections (sample_song 1).1)) as HF by compute_done.
  rewrite Forall_forall in HF. exact (HF _ Hedge eq_refl).
Qed.

Section Routing.
  Variable write_to : Project → list Pattern → list byte.
  Variables (args : list string) (vars : list (string * string)) (dir : string).

  (** C1, amended.  In every generated project a module other than the
      Output has a connection path to the Output exactly when it is not a
      control source.  A Sound2Ctl module has an incoming edge and no
      outgoing one, and every edge leaving a [vol=0] trigger leads to a
      Sound2Ctl module. *)
Theorem control_sources_kept_off_output s m :
    s ∈ generated write_to (granted args vars dir) → m ∈ modules s.1 →
    mtype m ≠ Output →
    (control_source m → ¬ reaches_output s.1 m) ∧
    (¬ control_source m → reaches_output s.1 m) ∧
    (mtype m = Sound2Ctl →
       (∃ a, edge s.1 a (index m)) ∧ ∀ b, ¬ edge s.1 (index m) b) ∧
    (kwarg "vol" m = Some (KInt 0) →
       ∀ b, edge s.1 (index m) b →
         ∃ c, c ∈ modules s.1 ∧ index c = b ∧ mtype c = Sound2Ctl).
  Proof.
    intros Hs Hm Hout.
    assert (Forall (λ s : Project * list Pattern, Forall (λ m : Module,
      mtype m ≠ Output →
      (control_source m →
         closed (module_connections s.1) (found_from s.1 (index m)) ∧
         Forall (λ o, mtype o = Output → index o ∉ found_from s.1 (index m))
           (modules s.1)) ∧
      (¬ control_source m →
         Exists (λ o, mtype o = Output ∧ index o ∈ found_from s.1 (index m))
           (modules s.1)) ∧
      (mtype m = Sound2Ctl →
         Exists (λ e, e.2 = index m) (module_connections s.1) ∧
         Forall (λ e, e.1 ≠ index m) (module_connections s.1)) ∧
      (kwarg "vol" m = Some (KInt 0) →
         Forall (λ e, e.1 = index m →
           Exists (λ c, index c = e.2 ∧ mtype c = Sound2Ctl) (modules s.1))
           (module_connections s.1))) (modules s.1))
      (generated write_to (granted args vars dir))) as HF by compute_done.
    rewrite Forall_forall in HF. specialize (HF s Hs).
    rewrite Forall_forall in HF.
    destruct (HF m Hm Hout) as (Hctl & Haud & Hs2c & Hvol).
    split; [|split; [|split]].
    - intros Hc (o & Ho & Hty & Hpath). destruct (Hctl Hc) as [Hcl Hno].
      rewrite Forall_forall in Hno.
      exact (Hno o Ho Hty (path_found_from _ _ _ Hcl Hpath)).
    - intros Hc. apply Exists_exists in Haud as (o & Ho & Hty & Hin); [|done].
      exists o. split; [done|]. split; [done|]. by apply found_from_path.
    - intros Hty. destruct (Hs2c Hty) as [Hin Hnone]. split.
      + apply Exists_exists in Hin as ([a b] & He & Hb). simpl in Hb. subst b.
        by exists a.
      + intros b Hb. rewrite Forall_forall in Hnone. exact (Hnone _ Hb eq_refl).
    - intros Hv b Hb. specialize (Hvol Hv). rewrite Forall_forall in Hvol.
      specialize (Hvol _ Hb eq_refl).
      apply Exists_exists in Hvol as (c & Hc & Hidx & Hty). by exists c.
  Qed.

  (** The scripts create five Sound2Ctl modules and one silent trigger. *)
Lemma control_sources_count :
    length (filter control_source
              (generated write_to (granted args vars dir) ≫= λ s, modules s.1)) = 6.
  Proof. compute_done. Qed.
End Routing.

(** The silent Vocal Trigger of the second sidechain example has no path
    to the Output. *)
Lemma control_sources_witness :
  sample_song 2 ∈ generated sample_write_to sample_env ∧
  sample_module 2 1 ∈ modules (sample_song 2).1 ∧
  mtype (sample_module 2 1) ≠ Output ∧
  kwarg "vol" (sample_module 2 1) = Some (KInt 0) ∧
  ¬ reaches_output (sample_song 2).1 (sample_module 2 1).
Proof.
  assert (H1 : sample_song 2 ∈ generated sample_write_to sample_env) by compute_done.
  assert (H2 : sample_module 2 1 ∈ modules (sample_song 2).1) by compute_done.
  assert (H3 : mtype (sample_module 2 1) ≠ Output) by compute_done.
  assert (H4 : kwarg "vol" (sample_module 2 1) = Some (KInt 0)) by compute_done.
  exact (conj H1 (conj H2 (conj H3 (conj H4
    (proj1 (control_sources_kept_off_output sample_write_to [] []
       "/home/user/Way-of-SunVox/8--Techniques/Sidechain-Compression"
       (sample_song 2) (sample_module 2 1) H1 H2 H3) (or_intror H4)))))).
Defined.

(** ** Files *)

Lemma os_path_join_inj a b1 b2 :
  is_absolute b1 = false → is_absolute b2 = false →
  os_path_join a b1 = os_path_join a b2 → b1 = b2.
Proof.
  unfold os_path_join. intros -> ->.
  destruct (String.eqb a "" || ends_with_sep a); intros H.
  - by apply (inj (String.app a)) in H.
  - apply (inj (String.app a)) in H. by apply (inj (String.app "/")) in H.
Qed.

Lemma sidechain_paths_distinct dir : NoDup (os_path_join dir <$> sidechain_files).
Proof.
  apply NoDup_fmap_2_strong; [|compute_done].
  intros b1 b2 H1 H2. apply os_path_join_inj.
  - revert b1 H1. apply Forall_forall. compute_done.
  - revert b2 H2. apply Forall_forall. compute_done.
Qed.

(** C6, as stated, fails: the sidechain script writes six files and the
    modular construction script seven. *)
Lemma scripts_write_more_than_one_file :
  ¬ (∀ w, w ∈ runs sample_write_to sample_env → length (written w) = 1).
Proof.
  intros H. specialize (H sample_sidechain sample_sidechain_in_runs).
  vm_compute in H. discriminate H.
Qed.

Section Files.
  Variable write_to : Project → list Pattern → list byte.
  Variables (args : list string) (vars : list (string * string)) (dir : string).

  (** C6, amended.  Each script writes exactly one file per project it
      builds, holding that project's serialisation: one file for the
      house track at a fixed path, six for the sidechain examples at
      paths computed from the script's directory, seven for the modular
      construction under its fixed output directory; the paths of one
      script are pairwise distinct. *)
Theorem one_file_per_project :
    (written (run (basic_house_track_py write_to (granted args vars dir)))
       = zip [house_path]
           (serialised write_to
              (run (basic_house_track_py write_to (granted args vars dir))))
     ∧ length (projects
         (run (basic_house_track_py write_to (granted args vars dir)))) = 1) ∧
    (written (run (generate_examples_py write_to (granted args vars dir)))
       = zip (os_path_join dir <$> sidechain_files)
           (serialised write_to
              (run (generate_examples_py write_to (granted args vars dir))))
     ∧ length (projects
         (run (generate_examples_py write_to (granted args vars dir)))) = 6
     ∧ NoDup (os_path_join dir <$> sidechain_files)) ∧
    (written (run (create_modular_construction_py write_to (granted args vars dir)))
       = zip ((λ f, output_dir +:+ f) <$> modular_files)
           (serialised write_to
              (run (create_modular_construction_py write_to (granted args vars dir))))
     ∧ length (projects
         (run (create_modular_construction_py write_to (granted args vars dir)))) = 7
     ∧ NoDup ((λ f, output_dir +:+ f) <$> modular_files)).
  Proof.
    split; [|split].
    - split; vm_compute; reflexivity.
    - split; [vm_compute; reflexivity|]. split; [vm_compute; reflexivity|].
      apply sidechain_paths_distinct.
    - split; [vm_compute; reflexivity|]. split; [vm_compute; reflexivity|].
      compute_done.
  Qed.
End Files.

(** ** Module indices *)

Section Steps.
  Variable write_to : Project → list Pattern → list byte.
  Variable env : Env.

Lemma update_project_effect p f w :
    (∀ P, modules (f P) = modules P) →
    proj_effect (projects w) (projects (update_project p f w).2).
  Proof.
    intros Hf. unfold update_project.
    destruct (projects w !! p); simpl; [by apply eff_keep|apply eff_same].
  Qed.

Lemma lib_step_effect w w' :
    lib_step write_to env w w' → proj_effect (projects w) (projects w').
  Proof.
    intros Hstep.
    destruct Hstep as [|p s|p n|p n|p v|p v|p|p cls nm kw|a b|nm nl nt|p h
                       |h l t a|file p|d].
    - apply eff_new_project.
    - by apply update_project_effect.
    - by apply update_project_effect.
    - by apply update_project_effect.
    - by apply update_project_effect.
    - by apply update_project_effect.
    - unfold output. destruct (projects w !! p ≫= _); apply eff_same.
    - unfold new_module. destruct (projects w !! p) as [P|] eqn:HP; simpl.
      + by apply eff_new_module.
      + apply eff_same.
    - unfold rshift, mbind, Py_bind.
      pose proof (update_project_effect (parent a)
        (with_connections (λ es, es ++ [(index a, index b)])) w (λ _, eq_refl)) as H.
      destruct (update_project _ _ w) as [[ex|[]] w1]; exact H.
    - apply eff_same.
    - by apply update_project_effect.
    - unfold set_cell. simpl.
      destruct (pattern_store w !! h) as [P|]; simpl; [|apply eff_same].
      destruct (data P !! l) as [row|]; simpl; [|apply eff_same].
      destruct (row !! t); apply eff_same.
    - unfold open_wb_write_to. destruct (can_open env file); [|apply eff_same].
      destruct (projects w !! p); apply eff_same.
    - unfold os_makedirs. destruct (can_open env d); apply eff_same.
  Qed.

  (** A module stays in its slot, untouched. *)
Lemma proj_effect_stable ps ps' p P i m :
    proj_effect ps ps' → ps !! p = Some P → modules P !! i = Some m →
    ∃ P', ps' !! p = Some P' ∧ modules P' !! i = Some m.
  Proof.
    intros Heff HP Hm. destruct Heff as [|q f Hf|q Q cls nm kw HQ|].
    - by exists P.
    - destruct (decide (q = p)) as [->|Hne].
      + exists (f P). rewrite list_lookup_alter_eq, HP. simpl. by rewrite Hf.
      + exists P. by rewrite list_lookup_alter_ne.
    - destruct (decide (q = p)) as [->|Hne].
      + eexists. rewrite list_lookup_alter_eq, HP. simpl. split; [done|].
        simpl. by apply lookup_app_l_Some.
      + exists P. by rewrite list_lookup_alter_ne.
    - exists P. split; [by apply lookup_app_l_Some|done].
  Qed.

Lemma proj_effect_indexed ps ps' :
    proj_effect ps ps' →
    (∀ p P i m, ps !! p = Some P → modules P !! i = Some m → index m = i) →
    (∀ p P i m, ps' !! p = Some P → modules P !! i = Some m → index m = i).
  Proof.
    intros Heff Hidx p P' i m HP' Hm.
    destruct Heff as [|q f Hf|q Q cls nm kw HQ|].
    - eauto.
    - destruct (decide (q = p)) as [->|Hne].
      + rewrite list_lookup_alter_eq in HP'.
        destruct (ps !! p) as [P|] eqn:HP; simplify_eq/=.
        rewrite Hf in Hm. eauto.
      + rewrite list_lookup_alter_ne in HP' by done. eauto.
    - destruct (decide (q = p)) as [->|Hne].
      + rewrite list_lookup_alter_eq, HQ in HP'. simplify_eq/=.
        apply lookup_app_Some in Hm as [Hm|[Hlen Hm]]; [eauto|].
        apply list_lookup_singleton_Some in Hm as [Hz <-]. simpl. lia.
      + rewrite list_lookup_alter_ne in HP' by done. eauto.
    - apply lookup_app_Some in HP' as [HP'|[Hlen HP']]; [eauto|].
      apply list_lookup_singleton_Some in HP' as [Hz <-].
      simpl in Hm. apply list_lookup_singleton_Some in Hm as [-> <-]. done.
  Qed.

Lemma steps_stable w w' p P i m :
    rtc (lib_step write_to env) w w' →
    projects w !! p = Some P → modules P !! i = Some m →
    ∃ P', projects w' !! p = Some P' ∧ modules P' !! i = Some m.
  Proof.
    intros Hsteps. revert P. induction Hsteps as [w|w w1 w' Hstep _ IH]; intros P HP Hm.
    - by exists P.
    - destruct (proj_effect_stable _ _ p P i m (lib_step_effect _ _ Hstep) HP Hm)
        as (P1 & HP1 & Hm1). eauto.
  Qed.

Lemma steps_indexed w w' :
    rtc (lib_step write_to env) w w' → indexed w → indexed w'.
  Proof.
    induction 1 as [|w w1 w' Hstep _ IH]; [done|]. intros Hidx. apply IH.
    unfold indexed. by apply (proj_effect_indexed _ _ (lib_step_effect _ _ Hstep)).
  Qed.

Lemma indexed_empty_world : indexed empty_world.
  Proof. intros p P i m HP. done. Qed.

  (** C8.  In a world reached by library calls, [new_module] gives the
      new module an index that no module of its project has; after any
      further calls the module still sits in its project under that
      index, and no other module of the project carries it. *)
Theorem module_index_unique_and_stable w p cls nm kw m w1 w' :
    rtc (lib_step write_to env) empty_world w →
    new_module p cls nm kw w = (inr m, w1) →
    rtc (lib_step write_to env) w1 w' →
    ∃ P P', projects w !! p = Some P ∧ projects w' !! p = Some P' ∧
      (∀ m0, m0 ∈ modules P → index m0 ≠ index m) ∧
      modules P' !! index m = Some m ∧
      (∀ j m', modules P' !! j = Some m' → index m' = index m → j = index m ∧ m' = m).
  Proof.
    intros Hreach Hnew Hlater.
    pose proof (steps_indexed _ _ Hreach indexed_empty_world) as Hidx.
    assert (lib_step write_to env w w1) as Hstep.
    { replace w1 with (new_module p cls nm kw w).2 by (by rewrite Hnew).
      apply step_new_module. }
    pose proof (steps_indexed _ _ (rtc_once _ _ Hstep) Hidx) as Hidx1.
    pose proof (steps_indexed _ _ Hlater Hidx1) as Hidx'.
    unfold new_module in Hnew.
    destruct (projects w !! p) as [P|] eqn:HP; [|done].
    injection Hnew as <- <-. simpl in *.
    assert (projects (with_projects (alter (with_modules
              (λ ms, ms ++ [mkModule cls nm kw (length (modules P)) p])) p) w) !! p
            = Some (with_modules
              (λ ms, ms ++ [mkModule cls nm kw (length (modules P)) p]) P)) as HP1.
    { simpl. by rewrite list_lookup_alter_eq, HP. }
    destruct (steps_stable _ _ p _ (length (modules P))
                (mkModule cls nm kw (length (modules P)) p) Hlater HP1)
      as (P' & HP' & Hm').
    { simpl. by rewrite lookup_app_r, Nat.sub_diag by lia. }
    exists P, P'. split; [done|]. split; [done|]. split; [|split; [done|]].
    - intros m0 Hm0 Heq. apply list_elem_of_lookup in Hm0 as [i Hi].
      pose proof (Hidx p P i m0 HP Hi) as Hslot.
      apply lookup_lt_Some in Hi. lia.
    - intros j m'' Hj Heq. pose proof (Hidx' p P' j m'' HP' Hj) as Hslot.
      assert (j = length (modules P)) as -> by lia.
      split; [done|]. rewrite Hm' in Hj. by injection Hj.
  Qed.
End Steps.

(** A kick drum created in a fresh project gets index 1 and keeps it. *)
Lemma module_index_witness :
  rtc (lib_step sample_write_to sample_env) empty_world one_project ∧
  new_module 0 Kicker "Kick" [] one_project
    = (inr (mkModule Kicker "Kick" [] 1 0), one_kick) ∧
  rtc (lib_step sample_write_to sample_env) one_kick one_kick ∧
  ∃ P P', projects one_project !! 0 = Some P ∧ projects one_kick !! 0 = Some P' ∧
    (∀ m0, m0 ∈ modules P → index m0 ≠ 1) ∧
    modules P' !! 1 = Some (mkModule Kicker "Kick" [] 1 0) ∧
    (∀ j m', modules P' !! j = Some m' → index m' = 1 →
       j = 1 ∧ m' = mkModule Kicker "Kick" [] 1 0).
Proof.
  assert (H1 : rtc (lib_step sample_write_to sample_env) empty_world one_project)
    by (apply rtc_once, step_new_project).
  assert (H2 : new_module 0 Kicker "Kick" [] one_project
                 = (inr (mkModule Kicker "Kick" [] 1 0), one_kick)) by reflexivity.
  assert (H3 : rtc (lib_step sample_write_to sample_env) one_kick one_kick)
    by apply rtc_refl.
  exact (conj H1 (conj H2 (conj H3
    (module_index_unique_and_stable sample_write_to sample_env
       one_project 0 Kicker "Kick" [] (mkModule Kicker "Kick" [] 1 0)
       one_kick one_kick H1 H2 H3)))).
Defined.

(** The projects the scripts generate are of this kind: every module sits
    in the slot its index names, so the indices of a project are distinct. *)
Lemma generated_modules_indexed write_to args vars dir s :
  s ∈ generated write_to (granted args vars dir) →
  index <$> modules s.1 = seq 0 (length (modules s.1)).
Proof.
  revert s. apply Forall_forall. compute_done.
Qed.

(* ================================================================== *)
(** * 8. Further properties *)

(** ** Sequencing *)

Lemma bind_assoc {A B C} (m : Py A) (f : A → Py B) (g : B → Py C) w :
  ((m ≫= f) ≫= g) w = (m ≫= (λ x, f x ≫= g)) w.
Proof.
  unfold mbind, Py_bind. destruct (m w) as [[e|a] w']; [done|].
  by destruct (f a w') as [[e|b] w''].
Qed.

Lemma bind_ret_unit (m : Py unit) w : (m ;; mret tt) w = m w.
Proof.
  unfold mbind, Py_bind, mret, Py_ret. by destruct (m w) as [[e|[]] w'].
Qed.

Lemma bind_ext {A B} (m : Py A) (f g : A → Py B) w :
  (∀ a w', f a w' = g a w') → (m ≫= f) w = (m ≫= g) w.
Proof.
  intros H. unfold mbind, Py_bind. destruct (m w) as [[e|a] w']; [done|apply H].
Qed.

Lemma for_ext {A} (xs : list A) (f g : A → Py unit) w :
  (∀ x w', f x w' = g x w') → for_ xs f w = for_ xs g w.
Proof.
  intros H. revert w. induction xs as [|x xs IH]; intros w; simpl; [done|].
  unfold mbind, Py_bind. rewrite H. destruct (g x w) as [[e|[]] w']; [done|apply IH].
Qed.

Lemma write_all_app pat ws1 ws2 w :
  write_all pat (ws1 ++ ws2) w = (write_all pat ws1 ;; write_all pat ws2) w.
Proof.
  unfold write_all. revert w. induction ws1 as [|x ws1 IH]; intros w; simpl.
  - done.
  - rewrite bind_assoc. apply bind_ext. intros [] w'. apply IH.
Qed.

(** A loop whose body is a block of assignments is one long block. *)
Lemma for_write_all {A} pat (xs : list A) (g : A → list (nat * nat * attr)) w :
  for_ xs (λ x, write_all pat (g x)) w = write_all pat (xs ≫= g) w.
Proof.
  revert w. induction xs as [|x xs IH]; intros w; simpl; [done|].
  rewrite write_all_app. apply bind_ext. intros [] w'. apply IH.
Qed.

(** ** One assignment *)

Lemma alter_as_insert {A} (f : A → A) (l : list A) i x :
  l !! i = Some x → alter f i l = <[i := f x]> l.
Proof.
  intros Hx. apply list_eq. intros j. destruct (decide (j = i)) as [->|Hne].
  - rewrite list_lookup_alter_eq, Hx, list_lookup_insert_eq; [done|].
    by eapply lookup_lt_Some.
  - by rewrite list_lookup_alter_ne, list_lookup_insert_ne.
Qed.

Lemma cell_at_write_cell P l t a l' t' :
  cell_at (write_cell P l t a) l' t'
  = if decide (l' = l ∧ t' = t) then assign a <$> cell_at P l t
    else cell_at P l' t'.
Proof.
  unfold cell_at, write_cell. simpl.
  destruct (decide (l' = l)) as [->|Hl].
  - rewrite list_lookup_alter_eq. destruct (data P !! l) as [row|]; simpl.
    + destruct (decide (t' = t)) as [->|Ht].
      * rewrite decide_True by done. by rewrite list_lookup_alter_eq.
      * rewrite decide_False by (intros [_ ?]; done).
        by rewrite list_lookup_alter_ne.
    + by destruct (decide _).
  - rewrite decide_False by (intros [? _]; done).
    by rewrite list_lookup_alter_ne.
Qed.

(** An assignment changes no cell's being there. *)
Lemma cell_at_write_cell_is_Some P l t a l' t' :
  is_Some (cell_at (write_cell P l t a) l' t') ↔ is_Some (cell_at P l' t').
Proof.
  rewrite cell_at_write_cell. destruct (decide _) as [[-> ->]|]; [|done].
  by rewrite fmap_is_Some.
Qed.

Lemma cell_at_apply_writes_is_Some P ws l t :
  is_Some (cell_at (apply_writes P ws) l t) ↔ is_Some (cell_at P l t).
Proof.
  revert P. induction ws as [|x ws IH]; intros P; simpl; [done|].
  unfold apply_writes in IH. rewrite IH. apply cell_at_write_cell_is_Some.
Qed.

(** In range, the assignment lands in its cell and in the trace, and
    nothing else moves. *)
Lemma set_cell_in_range w pat P l t a :
  pattern_store w !! pat = Some P → is_Some (cell_at P l t) →
  set_cell pat l t a w = (inr tt, after_writes w pat P [(l, t, a)]).
Proof.
  intros HP [c Hc]. unfold set_cell. simpl. rewrite HP.
  unfold cell_at in Hc. destruct (data P !! l) as [row|] eqn:Hrow; simpl in Hc; [|done].
  rewrite Hc. unfold after_writes, with_pattern_store. simpl. f_equal. f_equal.
  rewrite (alter_as_insert _ _ pat P HP). f_equal.
  unfold write_cell, with_data. f_equal.
  rewrite (alter_as_insert _ _ l row Hrow). f_equal.
  by rewrite (alter_as_insert _ _ t c Hc).
Qed.

(** Out of range, the assignment raises [IndexError]. *)
Lemma set_cell_out_of_range w pat P l t a :
  pattern_store w !! pat = Some P → cell_at P l t = None →
  (set_cell pat l t a w).1 = inl IndexError.
Proof.
  intros HP Hc. unfold set_cell. simpl. rewrite HP.
  unfold cell_at in Hc. destruct (data P !! l) as [row|]; simpl in Hc; [|done].
  by rewrite Hc.
Qed.

(** ** Blocks of assignments *)

Lemma after_writes_app w pat P ws1 ws2 :
  pattern_store w !! pat = Some P →
  after_writes (after_writes w pat P ws1) pat (apply_writes P ws1) ws2
  = after_writes w pat P (ws1 ++ ws2).
Proof.
  intros HP. unfold after_writes. simpl. f_equal.
  - rewrite list_insert_insert_eq. unfold apply_writes. by rewrite foldl_app.
  - unfold as_trace. by rewrite fmap_app, app_assoc.
Qed.

Lemma after_writes_lookup w pat P ws :
  pattern_store w !! pat = Some P →
  pattern_store (after_writes w pat P ws) !! pat = Some (apply_writes P ws).
Proof.
  intros HP. simpl. apply list_lookup_insert_eq. by eapply lookup_lt_Some.
Qed.

(** All in range: the block runs to its end. *)
Lemma write_all_in_range w pat P ws :
  pattern_store w !! pat = Some P →
  Forall (λ x, is_Some (cell_at P x.1.1 x.1.2)) ws →
  write_all pat ws w = (inr tt, after_writes w pat P ws).
Proof.
  intros HP Hall. revert w P HP Hall.
  induction ws as [|x ws IH]; intros w P HP Hall.
  - unfold write_all, after_writes, as_trace. simpl. unfold mret, Py_ret.
    f_equal. destruct w; simpl in *. f_equal.
    + by rewrite list_insert_id.
    + by rewrite app_nil_r.
  - apply Forall_cons in Hall as [Hx Hall]. destruct x as [[l t] a]. simpl in Hx.
    change (write_all pat ((l, t, a) :: ws) w)
      with ((set_cell pat l t a ;; write_all pat ws) w).
    unfold mbind at 1, Py_bind.
    rewrite (set_cell_in_range w pat P _ _ _ HP Hx).
    rewrite (IH _ (apply_writes P [(l, t, a)])
               (after_writes_lookup w pat P [(l, t, a)] HP)).
    + f_equal. apply (after_writes_app w pat P [(l, t, a)] ws HP).
    + eapply Forall_impl; [exact Hall|]. intros y Hy. simpl.
      by apply cell_at_write_cell_is_Some.
Qed.

(** One out of range: the block stops with [IndexError]. *)
Lemma write_all_out_of_range w pat P ws :
  pattern_store w !! pat = Some P →
  Exists (λ x, cell_at P x.1.1 x.1.2 = None) ws →
  (write_all pat ws w).1 = inl IndexError.
Proof.
  intros HP Hex. revert w P HP Hex.
  induction ws as [|x ws IH]; intros w P HP Hex; [by apply Exists_nil in Hex|].
  destruct x as [[l t] a].
  change (write_all pat ((l, t, a) :: ws) w)
    with ((set_cell pat l t a ;; write_all pat ws) w).
  unfold mbind at 1, Py_bind.
  destruct (cell_at P l t) as [c|] eqn:Hc.
  - rewrite (set_cell_in_range w pat P _ _ _ HP (mk_is_Some _ _ Hc)).
    apply Exists_cons in Hex as [Hx|Hex]; [simpl in Hx; congruence|].
    apply (IH _ (apply_writes P [(l, t, a)])
             (after_writes_lookup w pat P [(l, t, a)] HP)).
    eapply Exists_impl; [exact Hex|]. intros y Hy. simpl.
    apply eq_None_not_Some. rewrite cell_at_write_cell_is_Some.
    by apply eq_None_not_Some.
  - pose proof (set_cell_out_of_range w pat P _ _ a HP Hc) as Herr.
    destruct (set_cell pat l t a w) as [[e|[]] w']; simpl in *; congruence.
Qed.

(** ** The loops as blocks of assignments *)

Lemma kick_loop_block pat v kick w :
  kick_loop pat v kick w = write_all pat (beats ≫= kick_writes v kick) w.
Proof.
  unfold kick_loop, beats. rewrite <- for_write_all. apply for_ext.
  intros line w'. unfold write_all, kick_writes, set_note, set_vel, set_module. simpl.
  apply bind_ext. intros _ w1. apply bind_ext. intros _ w2.
  symmetry. apply bind_ret_unit.
Qed.

Lemma lead_loop_block pat lead melody w :
  lead_loop pat lead melody w = write_all pat (melody ≫= lead_writes lead) w.
Proof.
  unfold lead_loop. rewrite <- for_write_all. apply for_ext.
  intros [[line nt] vl] w'.
  unfold write_all, lead_writes, set_note, set_vel, set_module. simpl.
  apply bind_ext. intros _ w1. apply bind_ext. intros _ w2.
  apply bind_ext. intros _ w3.
  destruct (line + 6 <? 64); simpl; [|done].
  apply bind_ext. intros _ w4. symmetry. apply bind_ret_unit.
Qed.

Lemma apply_writes_app P ws1 ws2 :
  apply_writes P (ws1 ++ ws2) = apply_writes (apply_writes P ws1) ws2.
Proof. unfold apply_writes. apply foldl_app. Qed.

Lemma apply_writes_shape P ws :
  pname (apply_writes P ws) = pname P ∧ lines (apply_writes P ws) = lines P ∧
  tracks (apply_writes P ws) = tracks P.
Proof.
  revert P. induction ws as [|x ws IH]; intros P; [done|].
  change (apply_writes P (x :: ws))
    with (apply_writes (write_cell P x.1.1 x.1.2 x.2) ws).
  destruct (IH (write_cell P x.1.1 x.1.2 x.2)) as (H1 & H2 & H3).
  by rewrite H1, H2, H3.
Qed.

(** The three assignments of one kick put a full note-on in the cell. *)
Lemma cell_at_kick_writes P v kick x l t :
  cell_at (apply_writes P (kick_writes v kick x)) l t
  = if decide (l = x ∧ t = 0)
    then (λ _, mkNote NOTE.C5 v (index kick + 1)) <$> cell_at P x 0
    else cell_at P l t.
Proof.
  unfold kick_writes, apply_writes. simpl. rewrite !cell_at_write_cell.
  destruct (decide (l = x ∧ t = 0)) as [[-> ->]|Hne].
  - rewrite !decide_True by done. by destruct (cell_at P x 0) as [[]|].
  - done.
Qed.

Lemma cell_at_kick_block P v kick ls l t :
  (∀ x, x ∈ ls → is_Some (cell_at P x 0)) →
  cell_at (apply_writes P (ls ≫= kick_writes v kick)) l t
  = if decide (l ∈ ls ∧ t = 0) then Some (mkNote NOTE.C5 v (index kick + 1))
    else cell_at P l t.
Proof.
  revert P. induction ls as [|x ls IH]; intros P Hall.
  - destruct (decide (l ∈ [] ∧ t = 0)) as [[H _]|_]; [|done].
    by apply not_elem_of_nil in H.
  - change ((x :: ls) ≫= kick_writes v kick)
      with (kick_writes v kick x ++ (ls ≫= kick_writes v kick)).
    rewrite apply_writes_app, IH.
    2:{ intros y Hy. apply cell_at_apply_writes_is_Some, Hall. by right. }
    rewrite cell_at_kick_writes.
    destruct (Hall x (list_elem_of_here _ _)) as [c Hc].
    destruct (decide (l ∈ ls ∧ t = 0)) as [[Hin ->]|Hn1].
    + rewrite decide_True; [done|]. split; [by right|done].
    + destruct (decide (l = x ∧ t = 0)) as [[-> ->]|Hn2].
      * rewrite decide_True by (split; [by left|done]). by rewrite Hc.
      * rewrite decide_False; [done|]. intros [Hin ->].
        apply elem_of_cons in Hin as [->|Hin]; [by apply Hn2|by apply Hn1].
Qed.

(** X4.  On any pattern that has the four beat cells on track 0, the
    four-on-the-floor loop runs to its end; it leaves a full note-on (C5,
    the velocity, the kick's index plus one) in exactly those cells, every
    other cell as it was, and touches nothing else of the world. *)
Theorem kick_loop_fills_the_beats w pat P v kick :
  pattern_store w !! pat = Some P →
  (∀ l, l ∈ beats → is_Some (cell_at P l 0)) →
  ∃ P',
    kick_loop pat v kick w
      = (inr tt, mkWorld (projects w) (<[pat := P']> (pattern_store w))
                   (written w) (made_dirs w)
                   (trace w ++ as_trace pat (beats ≫= kick_writes v kick))) ∧
    pname P' = pname P ∧ lines P' = lines P ∧ tracks P' = tracks P ∧
    ∀ l t, cell_at P' l t
           = if decide (l ∈ beats ∧ t = 0)
             then Some (mkNote NOTE.C5 v (index kick + 1))
             else cell_at P l t.
Proof.
  intros HP Hbeats. exists (apply_writes P (beats ≫= kick_writes v kick)).
  split; [|split; [|split; [|split]]]; try apply apply_writes_shape.
  - rewrite kick_loop_block. apply write_all_in_range; [done|].
    apply Forall_forall. intros x Hx.
    apply list_elem_of_bind in Hx as (l & Hx & Hl). specialize (Hbeats l Hl).
    unfold kick_writes in Hx.
    repeat (apply elem_of_cons in Hx as [->|Hx]; [exact Hbeats|]).
    by apply not_elem_of_nil in Hx.
  - intros l t. by apply cell_at_kick_block.
Qed.

(** X5.  On a pattern too short for one of the beats the loop stops with
    [IndexError]. *)
Theorem kick_loop_index_error w pat P v kick l :
  pattern_store w !! pat = Some P → l ∈ beats → cell_at P l 0 = None →
  (kick_loop pat v kick w).1 = inl IndexError.
Proof.
  intros HP Hl Hc. rewrite kick_loop_block.
  apply (write_all_out_of_range w pat P); [done|].
  apply Exists_exists. exists (l, 0, AttrNote NOTE.C5). split; [|done].
  apply list_elem_of_bind. exists l. split; [|done]. apply list_elem_of_here.
Qed.

(** X6.  On a pattern of 64 lines the lead melody loop runs to its end for
    every melody whose lines are below 64, the note-off six lines below a
    note being written only where it fits; only the pattern and the trace
    change.  A melody with a line of 64 or more stops it with
    [IndexError]. *)
Theorem lead_loop_guarded w pat P lead melody :
  pattern_store w !! pat = Some P →
  (∀ l, is_Some (cell_at P l 0) ↔ l < 64) →
  (Forall (λ x, x.1.1 < 64) melody →
     lead_loop pat lead melody w
       = (inr tt, after_writes w pat P (melody ≫= lead_writes lead))) ∧
  (Exists (λ x, 64 ≤ x.1.1) melody →
     (lead_loop pat lead melody w).1 = inl IndexError).
Proof.
  intros HP Hrange. split.
  - intros Hall. rewrite lead_loop_block. apply write_all_in_range; [done|].
    apply Forall_forall. intros y Hy.
    apply list_elem_of_bind in Hy as (x & Hy & Hx).
    rewrite Forall_forall in Hall. specialize (Hall x Hx).
    unfold lead_writes in Hy. apply elem_of_app in Hy as [Hy|Hy].
    + repeat (apply elem_of_cons in Hy as [->|Hy]; [by apply Hrange|]).
      by apply not_elem_of_nil in Hy.
    + destruct (x.1.1 + 6 <? 64) eqn:Hguard; [|by apply not_elem_of_nil in Hy].
      apply Nat.ltb_lt in Hguard.
      repeat (apply elem_of_cons in Hy as [->|Hy]; [by apply Hrange|]).
      by apply not_elem_of_nil in Hy.
  - intros Hex. rewrite lead_loop_block.
    apply (write_all_out_of_range w pat P); [done|].
    apply Exists_exists in Hex as (x & Hx & Hge).
    apply Exists_exists. exists (x.1.1, 0, AttrNote x.1.2). split.
    + apply list_elem_of_bind. exists x. split; [|done].
      unfold lead_writes. apply elem_of_app. left. apply list_elem_of_here.
    + simpl. apply eq_None_not_Some. rewrite Hrange. lia.
Qed.

Lemma kick_loop_fills_the_beats_witness :
  pattern_store (one_pattern 32) !! 0 = Some (new_pattern "Example" 32 1) ∧
  (∀ l, l ∈ beats → is_Some (cell_at (new_pattern "Example" 32 1) l 0)) ∧
  ∃ P',
    kick_loop 0 120 sample_kick (one_pattern 32)
      = (inr tt, mkWorld (projects (one_pattern 32))
                   (<[0 := P']> (pattern_store (one_pattern 32)))
                   (written (one_pattern 32)) (made_dirs (one_pattern 32))
                   (trace (one_pattern 32)
                      ++ as_trace 0 (beats ≫= kick_writes 120 sample_kick))) ∧
    pname P' = pname (new_pattern "Example" 32 1) ∧
    lines P' = lines (new_pattern "Example" 32 1) ∧
    tracks P' = tracks (new_pattern "Example" 32 1) ∧
    ∀ l t, cell_at P' l t
           = if decide (l ∈ beats ∧ t = 0)
             then Some (mkNote NOTE.C5 120 (index sample_kick + 1))
             else cell_at (new_pattern "Example" 32 1) l t.
Proof.
  assert (H1 : pattern_store (one_pattern 32) !! 0
               = Some (new_pattern "Example" 32 1)) by reflexivity.
  assert (H2 : ∀ l, l ∈ beats → is_Some (cell_at (new_pattern "Example" 32 1) l 0)).
  { apply Forall_forall. compute_done. }
  exact (conj H1 (conj H2
    (kick_loop_fills_the_beats (one_pattern 32) 0 (new_pattern "Example" 32 1)
       120 sample_kick H1 H2))).
Defined.

Lemma kick_loop_index_error_witness :
  pattern_store (one_pattern 16) !! 0 = Some (new_pattern "Example" 16 1) ∧
  16 ∈ beats ∧
  cell_at (new_pattern "Example" 16 1) 16 0 = None ∧
  (kick_loop 0 120 sample_kick (one_pattern 16)).1 = inl IndexError.
Proof.
  assert (H1 : pattern_store (one_pattern 16) !! 0
               = Some (new_pattern "Example" 16 1)) by reflexivity.
  assert (H2 : 16 ∈ beats) by compute_done.
  assert (H3 : cell_at (new_pattern "Example" 16 1) 16 0 = None) by reflexivity.
  exact (conj H1 (conj H2 (conj H3
    (kick_loop_index_error (one_pattern 16) 0 (new_pattern "Example" 16 1)
       120 sample_kick 16 H1 H2 H3)))).
Defined.

Lemma lead_loop_guarded_witness :
  pattern_store (one_pattern 64) !! 0 = Some (new_pattern "Example" 64 1) ∧
  (∀ l, is_Some (cell_at (new_pattern "Example" 64 1) l 0) ↔ l < 64) ∧
  (Forall (λ x, x.1.1 < 64) sample_melody →
     lead_loop 0 sample_kick sample_melody (one_pattern 64)
       = (inr tt, after_writes (one_pattern 64) 0 (new_pattern "Example" 64 1)
                    (sample_melody ≫= lead_writes sample_kick))) ∧
  (Exists (λ x, 64 ≤ x.1.1) sample_melody →
     (lead_loop 0 sample_kick sample_melody (one_pattern 64)).1 = inl IndexError).
Proof.
  assert (H1 : pattern_store (one_pattern 64) !! 0
               = Some (new_pattern "Example" 64 1)) by reflexivity.
  assert (H2 : ∀ l, is_Some (cell_at (new_pattern "Example" 64 1) l 0) ↔ l < 64).
  { intros l.
    rewrite (cell_at_is_Some (new_pattern "Example" 64 1) 64 1);
      [lia|reflexivity|compute_done]. }
  exact (conj H1 (conj H2
    (lead_loop_guarded (one_pattern 64) 0 (new_pattern "Example" 64 1)
       sample_kick sample_melody H1 H2))).
Defined.

(** The note at line 60 of the sample melody gets no note-off: five of
    its lines would be needed below it, three are there. *)
Lemma sample_melody_writes :
  length (sample_melody ≫= lead_writes sample_kick) = 13.
Proof. reflexivity. Qed.

(** ** What the runs leave *)

Section Left.
Variable write_to : Project → list Pattern → list byte.
Variables (args : list string) (vars : list (string * string)) (dir : string).

(** X7.  No attribute of a cell is assigned twice in a run, and every
    assignment is still in its cell when the run ends: what the scripts
    write is what the saved pattern holds. *)
Theorem assignments_survive w e :
  w ∈ runs write_to (granted args vars dir) → e ∈ trace w →
  survives w e ∧
  ∀ i j e', trace w !! i = Some e → trace w !! j = Some e' →
            write_key e' = write_key e → i = j.
Proof.
  intros Hw He.
  assert (Forall (λ w : World,
    NoDup (write_key <$> trace w) ∧
    Forall (λ e : CellWrite,
      Exists (λ P : Pattern,
        Exists (λ c : Note, assign (w_attr e) c = c)
          (option_list (cell_at P (w_line e) (w_track e))))
        (option_list (pattern_store w !! w_pattern e))) (trace w))
    (runs write_to (granted args vars dir))) as HF by compute_done.
  rewrite Forall_forall in HF. destruct (HF w Hw) as [Hnd Hsurv].
  split.
  - rewrite Forall_forall in Hsurv. specialize (Hsurv e He).
    apply Exists_option_list in Hsurv as (P & HP & Hc).
    apply Exists_option_list in Hc as (c & Hc & Hval). by exists P, c.
  - intros i j e' Hi Hj Hkey.
    apply (NoDup_lookup _ i j (write_key e) Hnd).
    + by rewrite list_lookup_fmap, Hi.
    + by rewrite list_lookup_fmap, Hj, <- Hkey.
Qed.

(** X8.  In every generated project each connection joins two modules of
    the project, none leaves the Output, and no path leads back from the
    end of a connection to its start: the signal graphs have no loop. *)
Theorem connections_form_no_loop s a b :
  s ∈ generated write_to (granted args vars dir) → edge s.1 a b →
  a < length (modules s.1) ∧ b < length (modules s.1) ∧ a ≠ 0 ∧ ¬ path s.1 b a.
Proof.
  intros Hs Hedge.
  assert (Forall (λ s : Project * list Pattern, Forall (λ e : nat * nat,
    e.1 < length (modules s.1) ∧ e.2 < length (modules s.1) ∧ e.1 ≠ 0 ∧
    closed (module_connections s.1) (found_from s.1 e.2) ∧
    e.1 ∉ found_from s.1 e.2) (module_connections s.1))
    (generated write_to (granted args vars dir))) as HF by compute_done.
  rewrite Forall_forall in HF. specialize (HF s Hs).
  rewrite Forall_forall in HF.
  destruct (HF (a, b) Hedge) as (Ha & Hb & Hz & Hcl & Hnot).
  split; [done|]. split; [done|]. split; [done|].
  intros Hpath. exact (Hnot (path_found_from _ _ _ Hcl Hpath)).
Qed.

(** X9.  Every pattern a script creates is attached, to one project and
    once: the projects of a run share no pattern and leave none behind. *)
Theorem patterns_attached_once w h :
  w ∈ runs write_to (granted args vars dir) →
  NoDup (attached_handles w) ∧
  (h ∈ attached_handles w ↔ h < length (pattern_store w)).
Proof.
  intros Hw.
  assert (Forall (λ w : World,
    NoDup (attached_handles w) ∧
    Forall (λ h, h < length (pattern_store w)) (attached_handles w) ∧
    Forall (λ h, h ∈ attached_handles w) (seq 0 (length (pattern_store w))))
    (runs write_to (granted args vars dir))) as HF by compute_done.
  rewrite Forall_forall in HF. destruct (HF w Hw) as (Hnd & Hlt & Hall).
  split; [done|]. rewrite Forall_forall in Hlt, Hall. split.
  - apply Hlt.
  - intros Hh. apply Hall, elem_of_seq. lia.
Qed.

(** X10.  Every cell of every generated pattern is empty, a note-on with
    a velocity and a target module, or a note-off with a target module
    and no velocity; nothing is left half written. *)
Theorem cells_are_whole_events s P l t c :
  s ∈ generated write_to (granted args vars dir) → P ∈ s.2 →
  cell_at P l t = Some c → event_shaped c.
Proof.
  intros Hs HP Hc.
  assert (Forall (λ s : Project * list Pattern, Forall (λ P : Pattern,
    Forall (λ x : nat * nat * Note, event_shaped x.2) (cells P)) s.2)
    (generated write_to (granted args vars dir))) as HF by compute_done.
  rewrite Forall_forall in HF. specialize (HF s Hs).
  rewrite Forall_forall in HF. specialize (HF P HP).
  exact (Forall_cells (λ _ _ c, event_shaped c) P HF l t c Hc).
Qed.
End Left.

Lemma assignments_survive_witness :
  sample_sidechain ∈ runs sample_write_to sample_env ∧
  mkWrite 1 30 0 (AttrNote NOTE_OFF) ∈ trace sample_sidechain ∧
  survives sample_sidechain (mkWrite 1 30 0 (AttrNote NOTE_OFF)) ∧
  ∀ i j e', trace sample_sidechain !! i = Some (mkWrite 1 30 0 (AttrNote NOTE_OFF)) →
            trace sample_sidechain !! j = Some e' →
            write_key e' = write_key (mkWrite 1 30 0 (AttrNote NOTE_OFF)) → i = j.
Proof.
  assert (H1 : sample_sidechain ∈ runs sample_write_to sample_env)
    by exact sample_sidechain_in_runs.
  assert (H2 : mkWrite 1 30 0 (AttrNote NOTE_OFF) ∈ trace sample_sidechain)
    by compute_done.
  exact (conj H1 (conj H2
    (assignments_survive sample_write_to [] []
       "/home/user/Way-of-SunVox/8--Techniques/Sidechain-Compression"
       sample_sidechain (mkWrite 1 30 0 (AttrNote NOTE_OFF)) H1 H2))).
Defined.

Lemma connections_form_no_loop_witness :
  sample_song 1 ∈ generated sample_write_to sample_env ∧
  edge (sample_song 1).1 1 4 ∧
  1 < length (modules (sample_song 1).1) ∧ 4 < length (modules (sample_song 1).1) ∧
  1 ≠ 0 ∧ ¬ path (sample_song 1).1 4 1.
Proof.
  assert (H1 : sample_song 1 ∈ generated sample_write_to sample_env) by compute_done.
  assert (H2 : edge (sample_song 1).1 1 4) by (unfold edge; compute_done).
  exact (conj H1 (conj H2
    (connections_form_no_loop sample_write_to [] []
       "/home/user/Way-of-SunVox/8--Techniques/Sidechain-Compression"
       (sample_song 1) 1 4 H1 H2))).
Defined.

Lemma patterns_attached_once_witness :
  sample_sidechain ∈ runs sample_write_to sample_env ∧
  NoDup (attached_handles sample_sidechain) ∧
  (3 ∈ attached_handles sample_sidechain ↔ 3 < length (pattern_store sample_sidechain)).
Proof.
  assert (H1 : sample_sidechain ∈ runs sample_write_to sample_env)
    by exact sample_sidechain_in_runs.
  exact (conj H1
    (patterns_attached_once sample_write_to [] []
       "/home/user/Way-of-SunVox/8--Techniques/Sidechain-Compression"
       sample_sidechain 3 H1)).
Defined.

Lemma cells_are_whole_events_witness :
  sample_song 1 ∈ generated sample_write_to sample_env ∧
  sample_pattern 1 1 ∈ (sample_song 1).2 ∧
  cell_at (sample_pattern 1 1) 30 0 = Some (mkNote NOTE_OFF 0 3) ∧
  event_shaped (mkNote NOTE_OFF 0 3).
Proof.
  assert (H1 : sample_song 1 ∈ generated sample_write_to sample_env) by compute_done.
  assert (H2 : sample_pattern 1 1 ∈ (sample_song 1).2) by compute_done.
  assert (H3 : cell_at (sample_pattern 1 1) 30 0 = Some (mkNote NOTE_OFF 0 3))
    by (vm_compute; reflexivity).
  exact (conj H1 (conj H2 (conj H3
    (cells_are_whole_events sample_write_to [] []
       "/home/user/Way-of-SunVox/8--Techniques/Sidechain-Compression"
       (sample_song 1) (sample_pattern 1 1) 30 0 (mkNote NOTE_OFF 0 3) H1 H2 H3)))).
Defined.

(** The loops taken on their own are the loops of the scripts: the run of
    the house track starts with the assignments of the kick loop, ends
    with those of the intro kick, and has those of the lead melody in
    between. *)
Lemma house_trace_from_loops :
  take 12 (trace sample_house)
    = as_trace 0 (beats ≫= kick_writes 120 (sample_module 0 1)) ∧
  take 40 (drop 130 (trace sample_house))
    = as_trace 5 (house_melody ≫= lead_writes (sample_module 0 9)) ∧
  drop 170 (trace sample_house)
    = as_trace 6 (beats ≫= kick_writes 100 (sample_module 0 1)).
Proof. split; [|split]; vm_compute; reflexivity. Qed.

(** ** Loops over a range *)

Lemma elem_of_range stop step l :
  0 < step → l ∈ range 0 stop step ↔ l < stop ∧ l mod step = 0.
Proof.
  intros Hstep. unfold range. rewrite Nat.sub_0_r, list_elem_of_fmap.
  pose proof (Nat.Div0.mul_div_le (stop + (step - 1)) step) as Hq.
  split.
  - intros (i & -> & Hi). apply elem_of_seq in Hi. simpl.
    split; [nia|]. apply Nat.Div0.mod_mul.
  - intros [Hl Hmod]. exists (l / step).
    pose proof (Nat.div_mod_eq l step) as Hdm. rewrite Hmod in Hdm.
    split; [simpl; lia|]. apply elem_of_seq. split; [lia|]. simpl.
    apply (Nat.lt_le_trans _ (S (l / step))); [lia|].
    apply Nat.div_le_lower_bound; nia.
Qed.

Lemma hat_loop_block pat stop step v hat w :
  hat_loop pat stop step v hat w
  = write_all pat (range 0 stop step ≫= kick_writes v hat) w.
Proof.
  unfold hat_loop. rewrite <- for_write_all. apply for_ext.
  intros line w'. unfold write_all, kick_writes, set_note, set_vel, set_module. simpl.
  apply bind_ext. intros _ w1. apply bind_ext. intros _ w2.
  symmetry. apply bind_ret_unit.
Qed.

(** X11.  On a pattern that has its first [stop] cells on track 0, the
    hi-hat loop over [range(0, stop, step)] runs to its end and leaves a
    full note-on in exactly the cells of track 0 whose line is below
    [stop] and a multiple of [step]; every other cell stays as it was and
    nothing else of the world is touched. *)
Theorem hat_loop_fills_every_step w pat P stop step v hat :
  pattern_store w !! pat = Some P → 0 < step →
  (∀ l, l < stop → is_Some (cell_at P l 0)) →
  ∃ P',
    hat_loop pat stop step v hat w
      = (inr tt, mkWorld (projects w) (<[pat := P']> (pattern_store w))
                   (written w) (made_dirs w)
                   (trace w ++ as_trace pat (range 0 stop step ≫= kick_writes v hat))) ∧
    ∀ l t, cell_at P' l t
           = if decide ((l < stop ∧ l mod step = 0) ∧ t = 0)
             then Some (mkNote NOTE.C5 v (index hat + 1))
             else cell_at P l t.
Proof.
  intros HP Hstep Hcells.
  assert (∀ x, x ∈ range 0 stop step → is_Some (cell_at P x 0)) as Hall.
  { intros x Hx. apply elem_of_range in Hx as [Hx _]; [|done]. by apply Hcells. }
  exists (apply_writes P (range 0 stop step ≫= kick_writes v hat)). split.
  - rewrite hat_loop_block. apply write_all_in_range; [done|].
    apply Forall_forall. intros x Hx.
    apply list_elem_of_bind in Hx as (l & Hx & Hl). specialize (Hall l Hl).
    unfold kick_writes in Hx.
    repeat (apply elem_of_cons in Hx as [->|Hx]; [exact Hall|]).
    by apply not_elem_of_nil in Hx.
  - intros l t. rewrite cell_at_kick_block by done.
    destruct (decide (l ∈ range 0 stop step ∧ t = 0)) as [[Hin ->]|Hno].
    + rewrite decide_True; [done|]. split; [|done]. by apply elem_of_range.
    + rewrite decide_False; [done|]. intros [Hl ->]. apply Hno.
      split; [|done]. by apply elem_of_range.
Qed.

Lemma hat_loop_fills_every_step_witness :
  pattern_store (one_pattern 32) !! 0 = Some (new_pattern "Example" 32 1) ∧
  0 < 4 ∧
  (∀ l, l < 32 → is_Some (cell_at (new_pattern "Example" 32 1) l 0)) ∧
  ∃ P',
    hat_loop 0 32 4 90 sample_kick (one_pattern 32)
      = (inr tt, mkWorld (projects (one_pattern 32))
                   (<[0 := P']> (pattern_store (one_pattern 32)))
                   (written (one_pattern 32)) (made_dirs (one_pattern 32))
                   (trace (one_pattern 32)
                      ++ as_trace 0 (range 0 32 4 ≫= kick_writes 90 sample_kick))) ∧
    ∀ l t, cell_at P' l t
           = if decide ((l < 32 ∧ l mod 4 = 0) ∧ t = 0)
             then Some (mkNote NOTE.C5 90 (index sample_kick + 1))
             else cell_at (new_pattern "Example" 32 1) l t.
Proof.
  assert (H1 : pattern_store (one_pattern 32) !! 0
               = Some (new_pattern "Example" 32 1)) by reflexivity.
  assert (H2 : 0 < 4) by lia.
  assert (H3 : ∀ l, l < 32 → is_Some (cell_at (new_pattern "Example" 32 1) l 0)).
  { intros l Hl.
    apply (cell_at_is_Some (new_pattern "Example" 32 1) 32 1);
      [reflexivity|compute_done|lia]. }
  exact (conj H1 (conj H2 (conj H3
    (hat_loop_fills_every_step (one_pattern 32) 0 (new_pattern "Example" 32 1)
       32 4 90 sample_kick H1 H2 H3)))).
Defined.

(** ** Refused opens *)

Ltac split_on_opens f :=
  repeat match goal with
         | |- context [f ?p] => destruct (f p)
         end.

(** X1.  Whatever the operating system allows, the sidechain script
    writes its files in order up to the first open that is refused and
    stops there with that error: the files written before stay, with the
    bytes of the unhindered run, and nothing is written after. *)
Theorem sidechain_stops_at_first_refused_open
    (write_to : Project → list Pattern → list byte) (e : Env) :
  (written (run (generate_examples_py write_to e))).*1
    = leading (can_open e) (os_path_join (script_dir e) <$> sidechain_files) ∧
  outcome (generate_examples_py write_to e)
    = ending (can_open e) (os_path_join (script_dir e) <$> sidechain_files) ∧
  written (run (generate_examples_py write_to e))
    = take (length (leading (can_open e)
                     (os_path_join (script_dir e) <$> sidechain_files)))
        (written (run (generate_examples_py write_to
                         (granted (argv e) (environ e) (script_dir e))))).
Proof.
  destruct e as [a v d f]. split; [|split].
  - vm_compute. split_on_opens f; reflexivity.
  - vm_compute. split_on_opens f; reflexivity.
  - vm_compute. split_on_opens f; reflexivity.
Qed.

(** X2.  The modular construction script first asks for its output
    directory; refused there, it writes nothing.  Otherwise it writes its
    seven files in order up to the first refused open, and what it wrote
    before stays as in the unhindered run. *)
Theorem modular_stops_at_first_refused_open
    (write_to : Project → list Pattern → list byte) (e : Env) :
  made_dirs (run (create_modular_construction_py write_to e))
    = leading (can_open e) [output_dir] ∧
  (written (run (create_modular_construction_py write_to e))).*1
    = tail (leading (can_open e)
              (output_dir :: ((λ f, output_dir +:+ f) <$> modular_files))) ∧
  outcome (create_modular_construction_py write_to e)
    = ending (can_open e)
        (output_dir :: ((λ f, output_dir +:+ f) <$> modular_files)) ∧
  written (run (create_modular_construction_py write_to e))
    = take (length (tail (leading (can_open e)
                     (output_dir :: ((λ f, output_dir +:+ f) <$> modular_files)))))
        (written (run (create_modular_construction_py write_to
                         (granted (argv e) (environ e) (script_dir e))))).
Proof.
  destruct e as [a v d f]. split; [|split; [|split]].
  - vm_compute. split_on_opens f; reflexivity.
  - vm_compute. split_on_opens f; reflexivity.
  - vm_compute. split_on_opens f; reflexivity.
  - vm_compute. split_on_opens f; reflexivity.
Qed.

(** X3.  The house track script either writes its one file, when the
    open is granted, or stops with the error of the refused open and
    leaves nothing on disk; the project is built in full either way. *)
Theorem house_track_written_iff_open_granted
    (write_to : Project → list Pattern → list byte) (e : Env) :
  (written (run (basic_house_track_py write_to e))).*1
    = leading (can_open e) [house_path] ∧
  outcome (basic_house_track_py write_to e) = ending (can_open e) [house_path] ∧
  projects (run (basic_house_track_py write_to e))
    = projects (run (basic_house_track_py write_to
                       (granted (argv e) (environ e) (script_dir e)))) ∧
  pattern_store (run (basic_house_track_py write_to e))
    = pattern_store (run (basic_house_track_py write_to
                            (granted (argv e) (environ e) (script_dir e)))).
Proof.
  destruct e as [a v d f]. split; [|split; [|split]].
  - vm_compute. split_on_opens f; reflexivity.
  - vm_compute. split_on_opens f; reflexivity.
  - vm_compute. split_on_opens f; reflexivity.
  - vm_compute. split_on_opens f; reflexivity.
Qed.
